(** * JSONL training-data validation

    A shallow embedding of the two [validate_jsonl] functions of the
    fine-tuning console: the content-string validator of [src/main.py] and the
    file-based validator of [src/openai_upload_file.py], with the properties
    of the first that the specification states.

    Python text is a sequence of Unicode code points, a Python object returned
    by [json.loads] is a value of an inductive type, a raised exception is an
    explicit outcome, and the [for] loops with their early [return]s are
    folds over a three-way control type. *)

From Stdlib Require Import String Ascii.
From Stdlib Require Import List NArith ZArith Bool Arith Lia.
From Stdlib Require DecimalNat.
Import ListNotations.

Local Open Scope N_scope.

(* ================================================================= *)
(** ** Python [str] *)

(** A code point; a [str] is the list of its code points. *)
Definition char := N.
Definition str := list char.

(** ASCII literals.  [u] reads a literal as it is; [js] also turns every
    apostrophe into a double quote, so that JSON text can be written the way
    Python writes it between single quotes. *)
Definition u (s : string) : str :=
  map N_of_ascii (list_ascii_of_string s).

Definition DQ : char := 0x22.
Definition LF : char := 0x0A.

Definition js (s : string) : str :=
  map (fun c => if c =? 0x27 then DQ else c) (u s).

Definition str_eqb (a b : str) : bool :=
  if list_eq_dec N.eq_dec a b then true else false.

(** [str.isspace] on one code point, as CPython's [_PyUnicode_IsWhitespace]. *)
Definition isspace (c : char) : bool :=
  ((0x09 <=? c) && (c <=? 0x0D)) || ((0x1C <=? c) && (c <=? 0x20))
  || (c =? 0x85) || (c =? 0xA0) || (c =? 0x1680)
  || ((0x2000 <=? c) && (c <=? 0x200A))
  || (c =? 0x2028) || (c =? 0x2029) || (c =? 0x202F) || (c =? 0x205F)
  || (c =? 0x3000).

Fixpoint lstrip (s : str) : str :=
  match s with
  | [] => []
  | c :: r => if isspace c then lstrip r else s
  end.

Fixpoint rstrip (s : str) : str :=
  match s with
  | [] => []
  | c :: r =>
      match rstrip r with
      | [] => if isspace c then [] else [c]
      | r' => c :: r'
      end
  end.

(** [s.strip()] *)
Definition strip (s : str) : str := rstrip (lstrip s).

(** [s.split(sep)] for a one-character separator: never an empty list. *)
Fixpoint split (sep : char) (s : str) : list str :=
  match s with
  | [] => [[]]
  | c :: r =>
      if c =? sep then [] :: split sep r
      else match split sep r with
           | [] => [[c]]
           | h :: t => (c :: h) :: t
           end
  end.

(** [needle in hay] on two strings: substring search. *)
Fixpoint startswith (p s : str) : bool :=
  match p, s with
  | [], _ => true
  | _ :: _, [] => false
  | a :: p', b :: s' => (a =? b) && startswith p' s'
  end.

Fixpoint str_contains (needle hay : str) : bool :=
  startswith needle hay
  || match hay with
     | [] => false
     | _ :: hay' => str_contains needle hay'
     end.

(** [str(n)] of a non-negative [int], as the f-strings format it. *)
Fixpoint digits (d : Decimal.uint) : str :=
  match d with
  | Decimal.Nil => []
  | Decimal.D0 r => 0x30 :: digits r
  | Decimal.D1 r => 0x31 :: digits r
  | Decimal.D2 r => 0x32 :: digits r
  | Decimal.D3 r => 0x33 :: digits r
  | Decimal.D4 r => 0x34 :: digits r
  | Decimal.D5 r => 0x35 :: digits r
  | Decimal.D6 r => 0x36 :: digits r
  | Decimal.D7 r => 0x37 :: digits r
  | Decimal.D8 r => 0x38 :: digits r
  | Decimal.D9 r => 0x39 :: digits r
  end.

Definition str_of_nat (n : nat) : str := digits (Nat.to_uint n).

(* ================================================================= *)
(** ** Python objects and exceptions *)

(** What [json.loads] can return. *)
#[local] Set Warnings "-register-all".
Inductive value : Type :=
| VNone
| VBool (b : bool)
| VInt (z : Z)
| VFloat (literal : str)
| VStr (s : str)
| VList (items : list value)
| VDict (fields : list (str * value)).

Inductive exn : Type :=
| JSONDecodeError (diagnostic : str)
| TypeError
| KeyError
| RecursionError.

Inductive res (A : Type) : Type :=
| Ok (a : A)
| Raise (e : exn).
Arguments Ok {A} a.
Arguments Raise {A} e.

Fixpoint dict_get (k : str) (d : list (str * value)) : option value :=
  match d with
  | [] => None
  | (k', v) :: d' => if str_eqb k k' then Some v else dict_get k d'
  end.

(** [d[k] = v]: replaces the value of a key already present. *)
Fixpoint dict_set (k : str) (v : value) (d : list (str * value))
  : list (str * value) :=
  match d with
  | [] => [(k, v)]
  | (k', v') :: d' =>
      if str_eqb k k' then (k, v) :: d' else (k', v') :: dict_set k v d'
  end.

Definition has_key (k : str) (d : list (str * value)) : bool :=
  match dict_get k d with
  | Some _ => true
  | None => false
  end.

(** [key in obj], [key] a string: key membership in a dict, element
    membership in a list, substring in a string, [TypeError] otherwise. *)
Definition py_in (key : str) (obj : value) : res bool :=
  match obj with
  | VDict d => Ok (has_key key d)
  | VList l =>
      Ok (existsb (fun x => match x with
                            | VStr s => str_eqb s key
                            | _ => false
                            end) l)
  | VStr s => Ok (str_contains key s)
  | VNone | VBool _ | VInt _ | VFloat _ => Raise TypeError
  end.

(** [obj[key]], [key] a string. *)
Definition py_getitem (obj : value) (key : str) : res value :=
  match obj with
  | VDict d => match dict_get key d with
               | Some v => Ok v
               | None => Raise KeyError
               end
  | _ => Raise TypeError
  end.

(** Control inside a function body: fall through with a value, [return],
    or a raised exception on its way out. *)
Inductive ctl (R A : Type) : Type :=
| Norm (a : A)
| Ret (r : R)
| Exc (e : exn).
Arguments Norm {R A} a.
Arguments Ret {R A} r.
Arguments Exc {R A} e.

Definition bind {R A B} (c : ctl R A) (k : A -> ctl R B) : ctl R B :=
  match c with
  | Norm a => k a
  | Ret r => Ret r
  | Exc e => Exc e
  end.

Definition lift {R A} (r : res A) : ctl R A :=
  match r with
  | Ok a => Norm a
  | Raise e => Exc e
  end.

Notation "x <- c ;; k" := (bind c (fun x => k))
  (at level 61, c at next level, right associativity).

(** [try: body except json.JSONDecodeError as e: handler] *)
Definition except_JSONDecodeError {R A}
  (body : ctl R A) (handler : str -> ctl R A) : ctl R A :=
  match body with
  | Exc (JSONDecodeError e) => handler e
  | other => other
  end.

(** The two formats a pass can lock; [format_type] is [None] before. *)
Inductive format : Type := chat | legacy.

Definition k_messages : str := u "messages".
Definition k_prompt : str := u "prompt".
Definition k_completion : str := u "completion".
Definition k_role : str := u "role".
Definition k_content : str := u "content".

(** ['messages' in data], then ['prompt' in data and 'completion' in data];
    only evaluated while [format_type is None]. *)
Definition detect_format {R} (format_type : option format) (data : value)
  : ctl R (option format) :=
  match format_type with
  | Some f => Norm (Some f)
  | None =>
      m <- lift (py_in k_messages data) ;;
      if m then Norm (Some chat)
      else
        p <- lift (py_in k_prompt data) ;;
        if p then
          c <- lift (py_in k_completion data) ;;
          Norm (if c then Some legacy else None)
        else Norm None
  end.

(** ['role' not in msg or 'content' not in msg] *)
Definition lacks_role_or_content (msg : value) : res bool :=
  match py_in k_role msg with
  | Raise e => Raise e
  | Ok false => Ok true
  | Ok true =>
      match py_in k_content msg with
      | Raise e => Raise e
      | Ok c => Ok (negb c)
      end
  end.

(** ['prompt' not in data or 'completion' not in data] *)
Definition lacks_prompt_or_completion (data : value) : res bool :=
  match py_in k_prompt data with
  | Raise e => Raise e
  | Ok false => Ok true
  | Ok true =>
      match py_in k_completion data with
      | Raise e => Raise e
      | Ok c => Ok (negb c)
      end
  end.

(* ================================================================= *)
(** ** [src/main.py] *)

Module Main.

(** The texts of the f-strings, after [行{line_num}]. *)
Inductive reason : Type :=
| NoMessagesKey
| MessagesInvalid
| BadMessage
| NoPromptCompletion
| JsonError (e : str).

Definition reason_text (r : reason) : str :=
  match r with
  | NoMessagesKey =>
      u ": 'messages'" ++ [0x30AD; 0x30FC; 0x304C; 0x3042; 0x308A; 0x307E; 0x305B; 0x3093]
  | MessagesInvalid =>
      u ": 'messages'" ++ [0x304C; 0x7121; 0x52B9; 0x3067; 0x3059]
  | BadMessage =>
      u ": " ++ [0x30E1; 0x30C3; 0x30BB; 0x30FC; 0x30B8; 0x5F62; 0x5F0F; 0x304C;
                 0x4E0D; 0x6B63; 0x3067; 0x3059]
  | NoPromptCompletion =>
      u ": 'prompt'" ++ [0x307E; 0x305F; 0x306F] ++ u "'completion'"
        ++ [0x304C; 0x3042; 0x308A; 0x307E; 0x305B; 0x3093]
  | JsonError e =>
      u ": JSON" ++ [0x5F62; 0x5F0F; 0x30A8; 0x30E9; 0x30FC] ++ u " - " ++ e
  end.

(** [f"行{line_num}: ..."] *)
Definition message (line_num : nat) (r : reason) : str :=
  0x884C :: str_of_nat line_num ++ reason_text r.

Definition result : Type := bool * str * nat.

(** [return False, f"行{line_num}: ...", 0] *)
Definition reject (line_num : nat) (r : reason) : result :=
  (false, message line_num r, 0%nat).

Definition label_chat : str := [0x30C1; 0x30E3; 0x30C3; 0x30C8; 0x5F62; 0x5F0F].
Definition label_legacy : str := [0x30EC; 0x30AC; 0x30B7; 0x30FC; 0x5F62; 0x5F0F].
Definition samples : str := [0x30B5; 0x30F3; 0x30D7; 0x30EB].

Record state : Type := mkState {
  line_count : nat;
  format_type : option format
}.

Definition init : state := mkState 0 None.

(** [not line.strip()] *)
Definition is_blank (line : str) : bool :=
  match strip line with
  | [] => true
  | _ :: _ => false
  end.

(** [for msg in messages: ...] *)
Fixpoint for_messages (line_num : nat) (messages : list value)
  : ctl result unit :=
  match messages with
  | [] => Norm tt
  | msg :: rest =>
      bad <- lift (lacks_role_or_content msg) ;;
      if bad then Ret (reject line_num BadMessage)
      else for_messages line_num rest
  end.

(** The branch [if format_type == 'chat']. *)
Definition check_chat (line_num : nat) (data : value) : ctl result unit :=
  m <- lift (py_in k_messages data) ;;
  if negb m then Ret (reject line_num NoMessagesKey)
  else
    messages <- lift (py_getitem data k_messages) ;;
    match messages with
    | VList ((_ :: _) as l) => for_messages line_num l
    | _ => Ret (reject line_num MessagesInvalid)
    end.

(** The branch [elif format_type == 'legacy']. *)
Definition check_legacy (line_num : nat) (data : value) : ctl result unit :=
  bad <- lift (lacks_prompt_or_completion data) ;;
  if bad then Ret (reject line_num NoPromptCompletion) else Norm tt.

Definition check_record (format_type : option format) (line_num : nat)
  (data : value) : ctl result unit :=
  match format_type with
  | Some chat => check_chat line_num data
  | Some legacy => check_legacy line_num data
  | None => Norm tt
  end.

Section WithDecoder.

(** [json.loads], of Python's standard library. *)
Variable json_loads : str -> res value.

(** The statements under [try:], with [line_count] already incremented. *)
Definition try_body (st : state) (line_num : nat) (line : str)
  : ctl result state :=
  data <- lift (json_loads line) ;;
  ft <- detect_format (format_type st) data ;;
  _ <- check_record ft line_num data ;;
  Norm (mkState (line_count st) ft).

(** One iteration of [for line_num, line in enumerate(lines, 1)]. *)
Definition body (st : state) (line_num : nat) (line : str)
  : ctl result state :=
  if is_blank line then Norm st
  else
    let st := mkState (S (line_count st)) (format_type st) in
    except_JSONDecodeError (try_body st line_num line)
      (fun e => Ret (reject line_num (JsonError e))).

Fixpoint for_lines (st : state) (line_num : nat) (lines : list str)
  : ctl result state :=
  match lines with
  | [] => Norm st
  | line :: rest =>
      st' <- body st line_num line ;;
      for_lines st' (S line_num) rest
  end.

(** The lines after the loop. *)
Definition accept (st : state) : result :=
  let format_label :=
    match format_type st with
    | Some chat => label_chat
    | _ => label_legacy
    end in
  (true,
   format_label ++ u ": " ++ str_of_nat (line_count st) ++ samples,
   line_count st).

(** How the call ends: the lines after the loop when it runs to its end,
    the returned triple, or the exception that nothing catches. *)
Definition finish (c : ctl result state) : res result :=
  match c with
  | Norm st => Ok (accept st)
  | Ret r => Ok r
  | Exc e => Raise e
  end.

(** The function from its list of lines on. *)
Definition validate_lines (lines : list str) : res result :=
  finish (for_lines init 1 lines).

Definition validate_jsonl (content : str) : res result :=
  validate_lines (split LF (strip content)).

End WithDecoder.

End Main.

(* ================================================================= *)
(** ** [src/openai_upload_file.py] *)

Module Upload.

Definition result : Type := bool * str.

Definition line_prefix (line_num : nat) : str :=
  0x884C :: str_of_nat line_num.

Definition msg_no_messages_key (line_num : nat) : str :=
  line_prefix line_num ++ u ": 'messages'"
    ++ [0x30AD; 0x30FC; 0x304C; 0x3042; 0x308A; 0x307E; 0x305B; 0x3093].

Definition msg_not_a_list (line_num : nat) : str :=
  line_prefix line_num ++ u ": 'messages'"
    ++ [0x306F; 0x914D; 0x5217; 0x3067; 0x3042; 0x308B; 0x5FC5; 0x8981; 0x304C;
        0x3042; 0x308A; 0x307E; 0x3059].

Definition msg_empty (line_num : nat) : str :=
  line_prefix line_num ++ u ": 'messages'" ++ [0x304C; 0x7A7A; 0x3067; 0x3059].

Definition msg_bad_message (line_num : nat) : str :=
  line_prefix line_num ++ u ": "
    ++ [0x30E1; 0x30C3; 0x30BB; 0x30FC; 0x30B8; 0x306B] ++ u "'role'"
    ++ [0x307E; 0x305F; 0x306F] ++ u "'content'"
    ++ [0x304C; 0x3042; 0x308A; 0x307E; 0x305B; 0x3093].

Definition msg_no_prompt_completion (line_num : nat) : str :=
  line_prefix line_num ++ u ": 'prompt'" ++ [0x307E; 0x305F; 0x306F]
    ++ u "'completion'"
    ++ [0x30AD; 0x30FC; 0x304C; 0x3042; 0x308A; 0x307E; 0x305B; 0x3093].

Definition msg_json (line_num : nat) (e : str) : str :=
  line_prefix line_num ++ u ": JSON"
    ++ [0x5F62; 0x5F0F; 0x304C; 0x6B63; 0x3057; 0x304F; 0x3042; 0x308A; 0x307E;
        0x305B; 0x3093] ++ u " - " ++ e.

Definition msg_missing_file (file_path : str) : str :=
  [0x30D5; 0x30A1; 0x30A4; 0x30EB; 0x304C; 0x5B58; 0x5728; 0x3057; 0x307E;
   0x305B; 0x3093] ++ u ": " ++ file_path.

Definition msg_exception (e : str) : str :=
  [0x30D0; 0x30EA; 0x30C7; 0x30FC; 0x30B7; 0x30E7; 0x30F3; 0x30A8; 0x30E9;
   0x30FC] ++ u ": " ++ e.

Definition label_chat : str := [0x30C1; 0x30E3; 0x30C3; 0x30C8; 0x5F62; 0x5F0F].
Definition label_old : str := [0x53E4; 0x3044; 0x5F62; 0x5F0F].

Definition msg_success (format_label : str) (line_count : nat) : str :=
  [0x30D0; 0x30EA; 0x30C7; 0x30FC; 0x30B7; 0x30E7; 0x30F3; 0x6210; 0x529F]
    ++ u " (" ++ format_label ++ u "): " ++ str_of_nat line_count ++ [0x884C].

Fixpoint for_messages (line_num : nat) (messages : list value)
  : ctl result unit :=
  match messages with
  | [] => Norm tt
  | msg :: rest =>
      bad <- lift (lacks_role_or_content msg) ;;
      if bad then Ret (false, msg_bad_message line_num)
      else for_messages line_num rest
  end.

Definition check_chat (line_num : nat) (data : value) : ctl result unit :=
  m <- lift (py_in k_messages data) ;;
  if negb m then Ret (false, msg_no_messages_key line_num)
  else
    messages <- lift (py_getitem data k_messages) ;;
    match messages with
    | VList [] => Ret (false, msg_empty line_num)
    | VList l => for_messages line_num l
    | _ => Ret (false, msg_not_a_list line_num)
    end.

Definition check_legacy (line_num : nat) (data : value) : ctl result unit :=
  bad <- lift (lacks_prompt_or_completion data) ;;
  if bad then Ret (false, msg_no_prompt_completion line_num) else Norm tt.

Definition check_record (format_type : option format) (line_num : nat)
  (data : value) : ctl result unit :=
  match format_type with
  | Some chat => check_chat line_num data
  | Some legacy => check_legacy line_num data
  | None => Norm tt
  end.

Section WithDecoder.

Variable json_loads : str -> res value.

(** [str(e)] of a caught exception. *)
Variable exc_str : exn -> str.

(** The lines that iterating over the opened file yields; [None] when
    [os.path.exists] is false. *)
Variable file_lines : str -> option (list str).

Definition try_body (st : Main.state) (line_num : nat) (line : str)
  : ctl result Main.state :=
  data <- lift (json_loads line) ;;
  ft <- detect_format (Main.format_type st) data ;;
  _ <- check_record ft line_num data ;;
  Norm (Main.mkState (Main.line_count st) ft).

Definition body (st : Main.state) (line_num : nat) (line : str)
  : ctl result Main.state :=
  if Main.is_blank line then Norm st
  else
    let st := Main.mkState (S (Main.line_count st)) (Main.format_type st) in
    except_JSONDecodeError (try_body st line_num line)
      (fun e => Ret (false, msg_json line_num e)).

Fixpoint for_lines (st : Main.state) (line_num : nat) (lines : list str)
  : ctl result Main.state :=
  match lines with
  | [] => Norm st
  | line :: rest =>
      st' <- body st line_num line ;;
      for_lines st' (S line_num) rest
  end.

Definition accept (st : Main.state) : result :=
  let format_label :=
    match Main.format_type st with
    | Some chat => label_chat
    | _ => label_old
    end in
  (true, msg_success format_label (Main.line_count st)).

(** The outer [try: ... except Exception as e:] around the loop. *)
Definition validate_lines (lines : list str) : result :=
  match for_lines Main.init 1 lines with
  | Norm st => accept st
  | Ret r => r
  | Exc e => (false, msg_exception (exc_str e))
  end.

Definition validate_jsonl (file_path : str) : result :=
  match file_lines file_path with
  | None => (false, msg_missing_file file_path)
  | Some lines => validate_lines lines
  end.

End WithDecoder.

End Upload.

(* ================================================================= *)
(** ** A decoder for closed examples

    [json.loads] is not code of this repository: the validators above take it
    as a parameter and the general theorems hold for every decoder.  [Json.loads]
    is a decoder for the JSON texts of the examples: objects, arrays, strings
    without backslash escapes, numbers, [true], [false], [null], [NaN] and
    the infinities, between JSON white space.  It gives Python's diagnostic
    for a text whose first character cannot begin a value, and a fixed text
    for every other failure. *)

Module Json.

Inductive token : Type :=
| TLBrace | TRBrace | TLBrack | TRBrack | TColon | TComma
| TValue (v : value).

Definition is_digit (c : char) : bool := (0x30 <=? c) && (c <=? 0x39).

Definition json_ws (c : char) : bool :=
  (c =? 0x20) || (c =? 0x09) || (c =? 0x0A) || (c =? 0x0D).

Fixpoint scan_string (s : str) : option (str * str) :=
  match s with
  | [] => None
  | c :: r =>
      if c =? DQ then Some ([], r)
      else if (c =? 0x5C) || (c <? 0x20) then None
      else match scan_string r with
           | Some (b, rest) => Some (c :: b, rest)
           | None => None
           end
  end.

Fixpoint span_digits (s : str) : str * str :=
  match s with
  | c :: r =>
      if is_digit c then let (ds, rest) := span_digits r in (c :: ds, rest)
      else ([], s)
  | [] => ([], [])
  end.

Definition int_of_digits (ds : str) : Z :=
  fold_left (fun acc c => (10 * acc + (Z.of_N c - 48))%Z) ds 0%Z.

(** A number: an optional minus sign, then [0] or a digit sequence without
    leading zero, then an optional fraction and an optional exponent. *)
Definition scan_number (s : str) : option (value * str) :=
  let (sign, s1) :=
    match s with
    | 0x2D :: r => ([0x2D], r)
    | _ => ([], s)
    end in
  let int_part :=
    match s1 with
    | c :: r =>
        if c =? 0x30 then Some ([c], r)
        else if is_digit c then
               let (ds, rest) := span_digits r in Some (c :: ds, rest)
             else None
    | [] => None
    end in
  match int_part with
  | None => None
  | Some (ip, s2) =>
      let (frac, s3) :=
        match s2 with
        | 0x2E :: r =>
            match span_digits r with
            | ([], _) => ([], s2)
            | (fs, rest) => (0x2E :: fs, rest)
            end
        | _ => ([], s2)
        end in
      let (expo, s4) :=
        match s3 with
        | e :: r =>
            if (e =? 0x65) || (e =? 0x45) then
              let (sg, r') :=
                match r with
                | c :: r'' =>
                    if (c =? 0x2B) || (c =? 0x2D) then ([c], r'') else ([], r)
                | [] => ([], r)
                end in
              match span_digits r' with
              | ([], _) => ([], s3)
              | (es, rest) => (e :: sg ++ es, rest)
              end
            else ([], s3)
        | [] => ([], s3)
        end in
      match frac, expo with
      | [], [] =>
          let n := int_of_digits ip in
          Some (VInt (match sign with [] => n | _ => - n end)%Z, s4)
      | _, _ => Some (VFloat (sign ++ ip ++ frac ++ expo), s4)
      end
  end.

Definition literals : list (str * value) :=
  [ (u "true", VBool true); (u "false", VBool false); (u "null", VNone);
    (u "NaN", VFloat (u "NaN")); (u "Infinity", VFloat (u "Infinity"));
    (u "-Infinity", VFloat (u "-Infinity")) ].

Fixpoint scan_literal (table : list (str * value)) (s : str)
  : option (value * str) :=
  match table with
  | [] => None
  | (word, v) :: table' =>
      if startswith word s then Some (v, skipn (length word) s)
      else scan_literal table' s
  end.

Definition lex_one (s : str) : option (token * str) :=
  match s with
  | [] => None
  | c :: r =>
      if c =? 0x7B then Some (TLBrace, r)
      else if c =? 0x7D then Some (TRBrace, r)
      else if c =? 0x5B then Some (TLBrack, r)
      else if c =? 0x5D then Some (TRBrack, r)
      else if c =? 0x3A then Some (TColon, r)
      else if c =? 0x2C then Some (TComma, r)
      else if c =? DQ then
             match scan_string r with
             | Some (b, rest) => Some (TValue (VStr b), rest)
             | None => None
             end
      else match scan_number s with
           | Some (v, rest) => Some (TValue v, rest)
           | None =>
               match scan_literal literals s with
               | Some (v, rest) => Some (TValue v, rest)
               | None => None
               end
           end
  end.

Fixpoint lex (fuel : nat) (s : str) : option (list token) :=
  match fuel with
  | O => None
  | S fuel' =>
      match s with
      | [] => Some []
      | c :: r =>
          if json_ws c then lex fuel' r
          else match lex_one s with
               | Some (t, rest) =>
                   match lex fuel' rest with
                   | Some ts => Some (t :: ts)
                   | None => None
                   end
               | None => None
               end
      end
  end.

Fixpoint parse_value (fuel : nat) (ts : list token)
  : option (value * list token) :=
  match fuel with
  | O => None
  | S fuel' =>
      match ts with
      | TValue v :: r => Some (v, r)
      | TLBrack :: TRBrack :: r => Some (VList [], r)
      | TLBrack :: r => parse_items fuel' r []
      | TLBrace :: TRBrace :: r => Some (VDict [], r)
      | TLBrace :: r => parse_members fuel' r []
      | _ => None
      end
  end
with parse_items (fuel : nat) (ts : list token) (acc : list value)
  : option (value * list token) :=
  match fuel with
  | O => None
  | S fuel' =>
      match parse_value fuel' ts with
      | Some (v, TComma :: r) => parse_items fuel' r (acc ++ [v])
      | Some (v, TRBrack :: r) => Some (VList (acc ++ [v]), r)
      | _ => None
      end
  end
with parse_members (fuel : nat) (ts : list token) (acc : list (str * value))
  : option (value * list token) :=
  match fuel with
  | O => None
  | S fuel' =>
      match ts with
      | TValue (VStr key) :: TColon :: r =>
          match parse_value fuel' r with
          | Some (v, TComma :: r') => parse_members fuel' r' (dict_set key v acc)
          | Some (v, TRBrace :: r') => Some (VDict (dict_set key v acc), r')
          | _ => None
          end
      | _ => None
      end
  end.

Definition begins_value (s : str) : bool :=
  match lex_one s with
  | Some (TValue _, _) | Some (TLBrace, _) | Some (TLBrack, _) => true
  | _ => match s with
         | c :: _ => (c =? DQ) || json_ws c
         | [] => false
         end
  end.

Definition diagnostic (s : str) : str :=
  if begins_value s then u "invalid JSON"
  else u "Expecting value: line 1 column 1 (char 0)".

Definition loads (s : str) : res value :=
  match lex (S (length s)) s with
  | Some ts =>
      match parse_value (2 * length ts + 2) ts with
      | Some (v, []) => Ok v
      | _ => Raise (JSONDecodeError (diagnostic s))
      end
  | None => Raise (JSONDecodeError (diagnostic s))
  end.

End Json.

(** Lines joined by line feeds, to write a multi-line text. *)
Fixpoint join_lines (lines : list str) : str :=
  match lines with
  | [] => []
  | [l] => l
  | l :: ls => l ++ LF :: join_lines ls
  end.


(* ================================================================= *)
(** ** Vocabulary of the statements *)

Definition nonblank (line : str) : bool := negb (Main.is_blank line).

(** The number of non-blank lines. *)
Definition count_nonblank (lines : list str) : nat :=
  length (filter nonblank lines).

(** The first non-blank line. *)
Definition first_record (lines : list str) : option str :=
  find nonblank lines.

(** A message: a mapping with a [role] and a [content] key. *)
Definition message_ok (msg : value) : bool :=
  match msg with
  | VDict f => has_key k_role f && has_key k_content f
  | _ => false
  end.

(** The structural rule of the chat format: a mapping whose [messages] is a
    non-empty sequence of messages. *)
Definition chat_record (data : value) : bool :=
  match data with
  | VDict d =>
      match dict_get k_messages d with
      | Some (VList (m :: ms)) => forallb message_ok (m :: ms)
      | _ => false
      end
  | _ => false
  end.

(** The structural rule of the legacy format: a mapping with a [prompt] and a
    [completion] key. *)
Definition legacy_record (data : value) : bool :=
  match data with
  | VDict d => has_key k_prompt d && has_key k_completion d
  | _ => false
  end.

Definition conforms (f : format) (data : value) : bool :=
  match f with
  | chat => chat_record data
  | legacy => legacy_record data
  end.

(** A record in which detection finds neither format: it has no [messages]
    and not both [prompt] and [completion]. *)
Definition unrecognised (data : value) : Prop :=
  detect_format (R := Main.result) None data = Norm None.



(** The example inputs of the specification. *)
Definition chat_two_lines : str :=
  join_lines [ js "{'messages':[{'role':'user','content':'hi'}]}";
               js "{'messages':[{'role':'assistant','content':'hello'}]}" ].

Definition legacy_one_line : str := js "{'prompt':'Q','completion':'A'}".

Local Close Scope N_scope.

Definition all_space (s : str) : bool := forallb isspace s.

(** Two outcomes of main.py's checks that differ at most in the line number
    of the rejection: the line number reaches a check only through the
    message it builds. *)
Inductive same_up_to_line {A : Type}
  : ctl Main.result A -> ctl Main.result A -> Prop :=
| sul_norm (a : A) : same_up_to_line (Norm a) (Norm a)
| sul_exc (e : exn) : same_up_to_line (Exc e) (Exc e)
| sul_ret (n m : nat) (why : Main.reason) :
    same_up_to_line (Ret (Main.reject n why)) (Ret (Main.reject m why)).

(** An outcome of main.py's checks and one of openai_upload_file.py's that
    agree but for the wording of a rejection. *)
Inductive same_verdict {A : Type}
  : ctl Main.result A -> ctl Upload.result A -> Prop :=
| sv_norm (a : A) : same_verdict (Norm a) (Norm a)
| sv_exc (e : exn) : same_verdict (Exc e) (Exc e)
| sv_ret (d1 d2 : str) : same_verdict (Ret (false, d1, 0)) (Ret (false, d2)).

#[local] Hint Constructors same_up_to_line : core.

(* ================================================================= *)
(** ** Sizes for display *)

Local Open Scope N_scope.

(** The running value of [size_bytes] in the scaling loops: the [int]
    argument at first, a [float] after the first division.  Dividing a
    binary64 float by [1024.0] only lowers its exponent, and every integer
    below [2^53] is a float, so for such an argument the value after [k]
    divisions is exactly [amount / 1024^k]; it is kept as that fraction. *)
Record size_value : Type := mkSize { amount : Z; scale : Z }.

(** [size_bytes < 1024.0] and [size_bytes /= 1024.0] *)
Definition lt_1024 (x : size_value) : bool :=
  (amount x <? 1024 * scale x)%Z.

Definition div_1024 (x : size_value) : size_value :=
  mkSize (amount x) (1024 * scale x).

(** [a / d] rounded to the nearest integer, a tie going to the even one, as
    the conversion of a float to decimal digits rounds. *)
Definition round_half_even (a d : Z) : Z :=
  let q := (a / d)%Z in
  let r := (a mod d)%Z in
  if (d <? 2 * r)%Z then (q + 1)%Z
  else if (2 * r =? d)%Z then (if Z.even q then q else q + 1)%Z
  else q.

Definition two_digits (n : nat) : str :=
  if (n <? 10)%nat then 0x30 :: str_of_nat n else str_of_nat n.

(** A number of hundredths written with two decimals. *)
Definition render_hundredths (h : Z) : str :=
  str_of_nat (Z.to_nat (h / 100)) ++ u "." ++ two_digits (Z.to_nat (h mod 100)).

(** The number of hundredths that [.2f] shows for a value. *)
Definition hundredths (x : size_value) : Z :=
  round_half_even (100 * Z.abs (amount x)) (scale x).

(** [f"{size_bytes:.2f}"] *)
Definition format_2f (x : size_value) : str :=
  (if (amount x <? 0)%Z then u "-" else []) ++ render_hundredths (hundredths x).

(* ================================================================= *)
(** ** The remote API, as the routes and scripts use it *)

(** What a call of the client gives: its result, or a raised exception [e]
    with [str(e)] the text. *)
Inductive api_result (A : Type) : Type :=
| ApiOk (a : A)
| ApiError (text : str).
Arguments ApiOk {A} a.
Arguments ApiError {A} text.

Record file_object : Type := mkFile {
  file_id : str;
  file_filename : str;
  file_purpose : str;
  file_bytes : nat;
  file_status : str
}.

Record job_object : Type := mkJob {
  job_status : str;
  job_fine_tuned_model : option str
}.

(** The requests sent to the API, in the order in which they are sent. *)
Inductive api_call : Type :=
| FilesCreate (filename : option str) (content : list N) (purpose : str)
| FilesCreateFromPath (file_path : str) (purpose : str)
| JobsList (limit : nat)
| ChatCompletionsCreate (model : value) (messages : list value)
    (max_tokens : nat).

(** An exception that no handler of a route catches. *)
Inductive fault : Type :=
| Raised (e : exn)
| UnicodeDecodeError
| AttributeError.

(** How a route ends: the returned dict, an [HTTPException], or an exception
    left to the framework. *)
Inductive response : Type :=
| Body (v : value)
| HTTPException (status_code : nat) (detail : str)
| Uncaught (f : fault).

(** [obj.get(key, default)]: [None] stands for [AttributeError]. *)
Definition py_get (obj : value) (key : str) (default : value) : option value :=
  match obj with
  | VDict d => Some (match dict_get key d with
                     | Some v => v
                     | None => default
                     end)
  | _ => None
  end.

(** [obj.strip()]: [None] stands for [AttributeError]. *)
Definition py_strip (obj : value) : option str :=
  match obj with
  | VStr s => Some (strip s)
  | _ => None
  end.

(** The truth value of an object; that of a float is left to the reading of
    its literal. *)
Definition truthy (float_nonzero : str -> bool) (obj : value) : bool :=
  match obj with
  | VNone => false
  | VBool b => b
  | VInt z => negb (z =? 0)%Z
  | VFloat literal => float_nonzero literal
  | VStr s => match s with [] => false | _ => true end
  | VList l => match l with [] => false | _ => true end
  | VDict d => match d with [] => false | _ => true end
  end.

(** The rest of [src/main.py]. *)
Module MainApp.

(** [for unit in units: ...] of [format_bytes], and the [return] after it. *)
Fixpoint format_bytes_from (units : list str) (size_bytes : size_value) : str :=
  match units with
  | [] => format_2f size_bytes ++ u " TB"
  | unit :: rest =>
      if lt_1024 size_bytes then format_2f size_bytes ++ u " " ++ unit
      else format_bytes_from rest (div_1024 size_bytes)
  end.

Definition format_bytes (size_bytes : Z) : str :=
  format_bytes_from [u "B"; u "KB"; u "MB"; u "GB"] (mkSize size_bytes 1).

Definition detail_no_api_key : str :=
  u "API " ++ [0x30AD; 0x30FC; 0x304C; 0x8A2D; 0x5B9A; 0x3055; 0x308C; 0x3066;
               0x3044; 0x307E; 0x305B; 0x3093].

Definition upload_succeeded : str :=
  [0x30A2; 0x30C3; 0x30D7; 0x30ED; 0x30FC; 0x30C9; 0x6210; 0x529F] ++ u ": ".

Definition detail_model_and_message : str :=
  [0x30E2; 0x30C7; 0x30EB; 0x3068; 0x30E1; 0x30C3; 0x30BB; 0x30FC; 0x30B8;
   0x306F; 0x5FC5; 0x9808; 0x3067; 0x3059].

(** [s.split(":")[-1]] *)
Definition last_segment (s : str) : str := last (split 0x3A s) [].

Record model_entry : Type := mkEntry { entry_id : str; entry_name : str }.

(** The comprehension of [chat_page]. *)
Fixpoint succeeded_models (jobs : list job_object) : list model_entry :=
  match jobs with
  | [] => []
  | j :: rest =>
      if str_eqb (job_status j) (u "succeeded") then
        match job_fine_tuned_model j with
        | Some ((_ :: _) as m) =>
            mkEntry m (last_segment m) :: succeeded_models rest
        | _ => succeeded_models rest
        end
      else succeeded_models rest
  end.

Section Routes.

(** [os.environ.get("OPENAI_API_KEY")] *)
Variable api_key : option str.

(** The answers of the API. *)
Variable files_create :
  option str -> list N -> str -> api_result file_object.
Variable jobs_list : nat -> api_result (list job_object).
(** [client.chat.completions.create(...)] followed by
    [response.choices[0].message.content]. *)
Variable chat_create : value -> list value -> nat -> api_result value.

Variable json_loads : str -> res value.
(** [content.decode('utf-8')]; [None] stands for [UnicodeDecodeError]. *)
Variable decode_utf8 : list N -> option str.
Variable float_nonzero : str -> bool.

(** Whether [get_openai_client] returns a client. *)
Definition get_openai_client : bool :=
  match api_key with
  | Some (_ :: _) => true
  | _ => false
  end.

(** [GET /chat]: the models offered, and [stats["api_connected"]]. *)
Definition chat_page : list api_call * (list model_entry * bool) :=
  if get_openai_client then
    match jobs_list 50 with
    | ApiOk jobs => ([JobsList 50], (succeeded_models jobs, true))
    | ApiError _ => ([JobsList 50], ([], true))
    end
  else ([], ([], false)).

(** [POST /api/files/upload] *)
Definition upload_file (filename : option str) (content : list N)
  : list api_call * response :=
  if negb get_openai_client then ([], HTTPException 500 detail_no_api_key)
  else
    match decode_utf8 content with
    | None => ([], Uncaught UnicodeDecodeError)
    | Some content_str =>
        match Main.validate_jsonl json_loads content_str with
        | Raise e => ([], Uncaught (Raised e))
        | Ok (is_valid, message, line_count) =>
            if negb is_valid then ([], HTTPException 400 message)
            else
              ([FilesCreate filename content (u "fine-tune")],
               match files_create filename content (u "fine-tune") with
               | ApiOk uploaded =>
                   Body (VDict
                           [ (u "success", VBool true);
                             (u "file_id", VStr (file_id uploaded));
                             (u "filename", VStr (file_filename uploaded));
                             (u "message",
                              VStr (upload_succeeded ++ message)) ])
               | ApiError text => HTTPException 500 text
               end)
        end
    end.

(** The list [messages] that [chat_api] builds. *)
Definition chat_messages (system_prompt : value) (message : str)
  : list value :=
  (if truthy float_nonzero system_prompt
   then [VDict [(u "role", VStr (u "system"));
                (u "content", system_prompt)]]
   else [])
  ++ [VDict [(u "role", VStr (u "user")); (u "content", VStr message)]].

(** [POST /api/chat], from the awaited [request.json()] on. *)
Definition chat_api (request_json : res value)
  : list api_call * response :=
  if negb get_openai_client then ([], HTTPException 500 detail_no_api_key)
  else
    match request_json with
    | Raise e => ([], Uncaught (Raised e))
    | Ok data =>
        match py_get data (u "model") VNone with
        | None => ([], Uncaught AttributeError)
        | Some model_id =>
            match py_get data (u "message") (VStr []) with
            | None => ([], Uncaught AttributeError)
            | Some m =>
                match py_strip m with
                | None => ([], Uncaught AttributeError)
                | Some message =>
                    match py_get data (u "system_prompt") (VStr []) with
                    | None => ([], Uncaught AttributeError)
                    | Some system_prompt =>
                        if negb (truthy float_nonzero model_id)
                           || match message with [] => true | _ => false end
                        then
                          ([], HTTPException 400 detail_model_and_message)
                        else
                          let messages :=
                            chat_messages system_prompt message in
                          ([ChatCompletionsCreate model_id messages 1000],
                           match chat_create model_id messages 1000 with
                           | ApiOk content =>
                               Body (VDict [(u "response", content)])
                           | ApiError text => HTTPException 500 text
                           end)
                    end
                end
            end
        end
    end.

End Routes.

End MainApp.

(** The rest of [src/openai_upload_file.py]. *)
Module UploadScript.

(** The [for ... else] of [upload_file] that sets [size_str]. *)
Fixpoint size_str_from (units : list str) (file_size : size_value) : str :=
  match units with
  | [] => format_2f file_size ++ u " GB"
  | unit :: rest =>
      if lt_1024 file_size then format_2f file_size ++ u " " ++ unit
      else size_str_from rest (div_1024 file_size)
  end.

Definition size_str (file_size : Z) : str :=
  size_str_from [u "B"; u "KB"; u "MB"] (mkSize file_size 1).

(** ["=" * 80] *)
Definition rule : str := repeat 0x3D 80%nat.

Definition line_no_api_key : str :=
  [0x30A8; 0x30E9; 0x30FC] ++ u ": OPENAI_API_KEY "
    ++ [0x74B0; 0x5883; 0x5909; 0x6570; 0x304C; 0x8A2D; 0x5B9A; 0x3055; 0x308C;
        0x3066; 0x3044; 0x307E; 0x305B; 0x3093].

Definition line_set_it_first : str :=
  [0x5B9F; 0x884C; 0x524D; 0x306B; 0x4EE5; 0x4E0B; 0x306E; 0x3088; 0x3046;
   0x306B; 0x8A2D; 0x5B9A; 0x3057; 0x3066; 0x304F; 0x3060; 0x3055; 0x3044]
    ++ u ":".

Definition line_set_example : str := u "  set OPENAI_API_KEY=your_api_key_here".

Definition line_missing_file (file_path : str) : str :=
  [0x30A8; 0x30E9; 0x30FC] ++ u ": "
    ++ [0x30D5; 0x30A1; 0x30A4; 0x30EB; 0x304C; 0x5B58; 0x5728; 0x3057; 0x307E;
        0x305B; 0x3093] ++ u ": " ++ file_path.

Definition line_title : str :=
  u "OpenAI " ++ [0x30D5; 0x30A1; 0x30A4; 0x30EB; 0x30A2; 0x30C3; 0x30D7;
                   0x30ED; 0x30FC; 0x30C9].

Definition line_file (file_path : str) : str :=
  [0x30D5; 0x30A1; 0x30A4; 0x30EB] ++ u ": " ++ file_path.

Definition line_purpose (purpose : str) : str :=
  [0x76EE; 0x7684] ++ u ": " ++ purpose.

Definition line_validating : str :=
  [0x30D0; 0x30EA; 0x30C7; 0x30FC; 0x30B7; 0x30E7; 0x30F3; 0x4E2D] ++ u "...".

Definition line_failed (message : str) : str := [0x2717] ++ u " " ++ message.

Definition line_passed (message : str) : str := [0x25CB] ++ u " " ++ message.

Definition line_size (size : str) : str :=
  [0x30D5; 0x30A1; 0x30A4; 0x30EB; 0x30B5; 0x30A4; 0x30BA] ++ u ": " ++ size.

Definition line_uploading : str :=
  [0x30A2; 0x30C3; 0x30D7; 0x30ED; 0x30FC; 0x30C9; 0x4E2D] ++ u "...".

(** The lines printed after a successful upload. *)
Definition lines_uploaded (uploaded_file : file_object) : list str :=
  [ [0x25CB] ++ u " "
      ++ [0x30A2; 0x30C3; 0x30D7; 0x30ED; 0x30FC; 0x30C9; 0x6210; 0x529F]
      ++ u "!";
    [];
    [0x30A2; 0x30C3; 0x30D7; 0x30ED; 0x30FC; 0x30C9; 0x30D5; 0x30A1; 0x30A4;
     0x30EB; 0x60C5; 0x5831] ++ u ":";
    u "  " ++ [0x30D5; 0x30A1; 0x30A4; 0x30EB] ++ u "ID: "
      ++ file_id uploaded_file;
    u "  " ++ [0x30D5; 0x30A1; 0x30A4; 0x30EB; 0x540D] ++ u ": "
      ++ file_filename uploaded_file;
    u "  " ++ [0x76EE; 0x7684] ++ u ": " ++ file_purpose uploaded_file;
    u "  " ++ [0x30B5; 0x30A4; 0x30BA] ++ u ": "
      ++ str_of_nat (file_bytes uploaded_file) ++ u " bytes";
    u "  " ++ [0x30B9; 0x30C6; 0x30FC; 0x30BF; 0x30B9] ++ u ": "
      ++ file_status uploaded_file;
    [];
    [0x3053; 0x306E; 0x30D5; 0x30A1; 0x30A4; 0x30EB] ++ u "ID"
      ++ [0x3092; 0x30D5; 0x30A1; 0x30A4; 0x30F3; 0x30C1; 0x30E5; 0x30FC;
          0x30CB; 0x30F3; 0x30B0; 0x6642; 0x306B; 0x4F7F; 0x7528; 0x3057;
          0x307E; 0x3059] ++ u ":";
    u "  " ++ file_id uploaded_file ].

Definition line_upload_error (e : str) : str :=
  [0x2717] ++ u " "
    ++ [0x30A2; 0x30C3; 0x30D7; 0x30ED; 0x30FC; 0x30C9; 0x30A8; 0x30E9; 0x30FC]
    ++ u ": " ++ e.

(** What a run of [upload_file] leaves: the lines printed, the requests
    sent, and the returned object ([None] when it returns [None]). *)
Record run : Type := mkRun {
  printed : list str;
  calls : list api_call;
  returned : option file_object
}.

Section Script.

Variable api_key : option str.
Variable json_loads : str -> res value.
Variable exc_str : exn -> str.
(** The file system: the lines of a file ([None] when the path does not
    exist) and [os.path.getsize]. *)
Variable file_lines : str -> option (list str).
Variable getsize : str -> Z.
(** [client.files.create(file=f, purpose=purpose)] on the opened file. *)
Variable files_create : str -> str -> api_result file_object.

Definition upload_file (file_path purpose : str) : run :=
  match api_key with
  | Some (_ :: _) =>
      match file_lines file_path with
      | None => mkRun [line_missing_file file_path] [] None
      | Some _ =>
          let head :=
            [ rule; line_title; rule; line_file file_path;
              line_purpose purpose; []; line_validating ] in
          let '(is_valid, message) :=
            Upload.validate_jsonl json_loads exc_str file_lines file_path in
          if negb is_valid then mkRun (head ++ [line_failed message]) [] None
          else
            let head :=
              head ++ [ line_passed message; [];
                        line_size (size_str (getsize file_path)); [];
                        line_uploading ] in
            match files_create file_path purpose with
            | ApiOk uploaded_file =>
                mkRun (head ++ lines_uploaded uploaded_file)
                  [FilesCreateFromPath file_path purpose]
                  (Some uploaded_file)
            | ApiError e =>
                mkRun (head ++ [line_upload_error e])
                  [FilesCreateFromPath file_path purpose] None
            end
      end
  | _ => mkRun [line_no_api_key; line_set_it_first; line_set_example] [] None
  end.

End Script.

End UploadScript.

Local Close Scope N_scope.

(** The message of openai_upload_file.py for a rejection of main.py at the
    same line: main.py has one text for a [messages] that is not a list and
    for one that is empty, the file-based validator has two. *)
Definition upload_message (line_num : nat) (why : Main.reason) (m : str)
  : Prop :=
  match why with
  | Main.NoMessagesKey => m = Upload.msg_no_messages_key line_num
  | Main.MessagesInvalid =>
      m = Upload.msg_not_a_list line_num \/ m = Upload.msg_empty line_num
  | Main.BadMessage => m = Upload.msg_bad_message line_num
  | Main.NoPromptCompletion => m = Upload.msg_no_prompt_completion line_num
  | Main.JsonError e => m = Upload.msg_json line_num e
  end.

(** An outcome of main.py's checks and one of openai_upload_file.py's that
    report the same thing: the same state, the same exception, or the
    rejection of the same line for the same reason. *)
Inductive same_report {A : Type}
  : ctl Main.result A -> ctl Upload.result A -> Prop :=
| sr_norm (a : A) : same_report (Norm a) (Norm a)
| sr_exc (e : exn) : same_report (Exc e) (Exc e)
| sr_ret (n : nat) (why : Main.reason) (m : str) :
    upload_message n why m ->
    same_report (Ret (Main.reject n why)) (Ret (false, m)).

(** A record on which the membership tests raise: a number, a boolean or
    [None]. *)
Definition scalar (data : value) : bool :=
  match data with
  | VNone | VBool _ | VInt _ | VFloat _ => true
  | VStr _ | VList _ | VDict _ => false
  end.

(** An environment for closed examples: a key, an API that stores what it
    is given, and bytes read as ASCII. *)
Definition example_key : option str := Some (u "sk-example").

Definition example_files_create (filename : option str) (content : list N)
  (purpose : str) : api_result file_object :=
  ApiOk (mkFile (u "file-1")
           (match filename with Some f => f | None => [] end)
           purpose (length content) (u "uploaded")).

Definition example_files_create_path (file_path purpose : str)
  : api_result file_object :=
  ApiOk (mkFile (u "file-1") file_path purpose 0 (u "uploaded")).

Definition example_chat_create (model : value) (messages : list value)
  (max_tokens : nat) : api_result value :=
  ApiOk (VStr (u "hello")).

Definition ascii_decode (content : list N) : option str :=
  if forallb (fun b => N.ltb b 128) content then Some content else None.

Definition example_jobs : list job_object :=
  [ mkJob (u "succeeded") (Some (u "ft:gpt-4o-mini:org:name:abc"));
    mkJob (u "running") None;
    mkJob (u "succeeded") (Some (u "plain")) ].

(* ================================================================= *)
(** * Properties *)

(** ** Trimming and splitting *)

Lemma lstrip_decompose (s : str) :
  exists w, all_space w = true /\ s = w ++ lstrip s.
Proof.
  induction s as [|c r [w [Hw Hr]]]; simpl.
  - exists []. now split.
  - destruct (isspace c) eqn:Hc.
    + exists (c :: w). simpl. rewrite Hc, Hw. split; [reflexivity|].
      now rewrite <- Hr.
    + exists []. now split.
Qed.

Lemma rstrip_decompose (s : str) :
  exists w, all_space w = true /\ s = rstrip s ++ w.
Proof.
  induction s as [|c r [w [Hw Hr]]]; simpl.
  - exists []. now split.
  - destruct (rstrip r) as [|d r'] eqn:E; simpl in Hr.
    + destruct (isspace c) eqn:Hc.
      * exists (c :: w). simpl. rewrite Hc, Hw. split; [reflexivity|].
        now f_equal.
      * exists w. split; [assumption|]. simpl. now f_equal.
    + exists w. split; [assumption|]. simpl. now f_equal.
Qed.

Lemma lstrip_nil (s : str) : lstrip s = [] <-> all_space s = true.
Proof.
  induction s as [|c r IH]; simpl; [tauto|].
  destruct (isspace c); simpl; [exact IH|].
  split; discriminate.
Qed.

Lemma rstrip_nil (s : str) : rstrip s = [] <-> all_space s = true.
Proof.
  induction s as [|c r IH]; simpl; [tauto|].
  destruct (rstrip r) as [|d r'] eqn:E.
  - destruct (isspace c); simpl.
    + split; intros _; [now apply IH | reflexivity].
    + split; discriminate.
  - split; [discriminate|].
    intros H. apply andb_true_iff in H as [_ H].
    apply IH in H. discriminate.
Qed.

Lemma all_space_app (a b : str) :
  all_space (a ++ b) = all_space a && all_space b.
Proof. apply forallb_app. Qed.

Lemma all_space_lstrip (s : str) : all_space (lstrip s) = all_space s.
Proof.
  destruct (lstrip_decompose s) as [w [Hw Hs]].
  rewrite Hs at 2. now rewrite all_space_app, Hw.
Qed.

(** [not line.strip()] holds exactly of the lines made of white space. *)
Lemma is_blank_all_space (line : str) :
  Main.is_blank line = all_space line.
Proof.
  unfold Main.is_blank, strip.
  destruct (rstrip (lstrip line)) as [|c r] eqn:E.
  - apply rstrip_nil in E. now rewrite all_space_lstrip in E.
  - destruct (all_space line) eqn:H; [|reflexivity].
    rewrite <- all_space_lstrip in H. apply rstrip_nil in H. congruence.
Qed.

Lemma is_blank_app (a b : str) :
  Main.is_blank (a ++ b) = Main.is_blank a && Main.is_blank b.
Proof. rewrite !is_blank_all_space. apply all_space_app. Qed.

Lemma nonblank_app_blank_l (w s : str) :
  Main.is_blank w = true -> nonblank (w ++ s) = nonblank s.
Proof. unfold nonblank. intros H. now rewrite is_blank_app, H. Qed.

Lemma nonblank_app_blank_r (s w : str) :
  Main.is_blank w = true -> nonblank (s ++ w) = nonblank s.
Proof.
  unfold nonblank. intros H. now rewrite is_blank_app, H, andb_true_r.
Qed.

Lemma split_not_nil (sep : char) (s : str) : split sep s <> [].
Proof.
  destruct s as [|c r]; simpl; [discriminate|].
  destruct (N.eqb c sep); [discriminate|].
  destruct (split sep r); discriminate.
Qed.

Lemma split_snoc (sep : char) (s : str) :
  exists front final, split sep s = front ++ [final].
Proof.
  destruct (exists_last (split_not_nil sep s)) as [front [final H]].
  now exists front, final.
Qed.

(** Splitting a concatenation: the last piece of the left part and the first
    piece of the right part make one line. *)
Lemma split_app (sep : char) (a b : str) (front : list str) (x y : str)
  (back : list str) :
  split sep a = front ++ [x] ->
  split sep b = y :: back ->
  split sep (a ++ b) = front ++ (x ++ y) :: back.
Proof.
  intros Ha Hb. revert front x Ha.
  induction a as [|c r IH]; intros front x Ha; simpl in *.
  - destruct front as [|f front].
    + injection Ha as <-. exact Hb.
    + destruct front; discriminate.
  - destruct (N.eqb c sep).
    + destruct front as [|f front].
      * injection Ha as _ Hr. now destruct (split_not_nil sep r).
      * injection Ha as <- Hr. simpl. f_equal. now apply IH.
    + destruct (split sep r) as [|h t] eqn:Er.
      * now destruct (split_not_nil sep r).
      * destruct front as [|f front].
        -- injection Ha as <- ->. rewrite (IH [] h eq_refl). reflexivity.
        -- injection Ha as <- ->. simpl.
           rewrite (IH (h :: front) x eq_refl). reflexivity.
Qed.

Lemma split_all_space (sep : char) (w : str) :
  all_space w = true ->
  Forall (fun l => Main.is_blank l = true) (split sep w).
Proof.
  induction w as [|c r IH]; simpl; intros H.
  - constructor; [reflexivity | constructor].
  - apply andb_true_iff in H as [Hc Hr]. specialize (IH Hr).
    destruct (N.eqb c sep).
    + constructor; [reflexivity | exact IH].
    + destruct (split sep r) as [|h t] eqn:Er;
        [now destruct (split_not_nil sep r)|].
      inversion IH as [|? ? Hh Ht]; subst.
      constructor; [|exact Ht].
      rewrite is_blank_all_space in *. simpl. now rewrite Hc.
Qed.

Lemma count_nonblank_app (a b : list str) :
  count_nonblank (a ++ b) = count_nonblank a + count_nonblank b.
Proof. unfold count_nonblank. now rewrite filter_app, length_app. Qed.

Lemma count_nonblank_blank (ls : list str) :
  Forall (fun l => Main.is_blank l = true) ls -> count_nonblank ls = 0.
Proof.
  induction 1 as [|l ls Hl _ IH]; [reflexivity|].
  unfold count_nonblank in *. simpl. unfold nonblank at 1. now rewrite Hl.
Qed.

Lemma count_nonblank_cons (l : str) (ls : list str) :
  count_nonblank (l :: ls)
  = (if nonblank l then 1 else 0) + count_nonblank ls.
Proof. unfold count_nonblank. simpl. now destruct (nonblank l). Qed.

Lemma count_nonblank_split_blank_l (w s : str) :
  all_space w = true ->
  count_nonblank (split LF (w ++ s)) = count_nonblank (split LF s).
Proof.
  intros Hw.
  destruct (split_snoc LF w) as [front [x Ew]].
  destruct (split LF s) as [|y back] eqn:Es; [now destruct (split_not_nil LF s)|].
  rewrite (split_app _ _ _ _ _ _ _ Ew Es).
  pose proof (split_all_space LF w Hw) as Hall. rewrite Ew in Hall.
  apply Forall_app in Hall as [Hf Hx]. inversion Hx; subst.
  rewrite count_nonblank_app, !count_nonblank_cons.
  rewrite (count_nonblank_blank _ Hf), nonblank_app_blank_l by assumption.
  reflexivity.
Qed.

Lemma count_nonblank_split_blank_r (s w : str) :
  all_space w = true ->
  count_nonblank (split LF (s ++ w)) = count_nonblank (split LF s).
Proof.
  intros Hw.
  destruct (split_snoc LF s) as [front [x Es]].
  destruct (split LF w) as [|y back] eqn:Ew; [now destruct (split_not_nil LF w)|].
  rewrite (split_app _ _ _ _ _ _ _ Es Ew), Es.
  pose proof (split_all_space LF w Hw) as Hall. rewrite Ew in Hall.
  inversion Hall; subst.
  rewrite !count_nonblank_app, !count_nonblank_cons.
  rewrite (count_nonblank_blank back), nonblank_app_blank_r by assumption.
  reflexivity.
Qed.

(** Trimming the text neither adds nor removes a non-blank line. *)
Lemma count_nonblank_strip (content : str) :
  count_nonblank (split LF (strip content))
  = count_nonblank (split LF content).
Proof.
  destruct (lstrip_decompose content) as [w1 [H1 E1]].
  destruct (rstrip_decompose (lstrip content)) as [w2 [H2 E2]].
  unfold strip.
  rewrite <- (count_nonblank_split_blank_r (rstrip (lstrip content)) w2 H2).
  rewrite <- E2.
  rewrite <- (count_nonblank_split_blank_l w1 (lstrip content) H1).
  now rewrite <- E1.
Qed.

(** A text all of whose lines are blank is white space. *)
Lemma all_blank_lines_all_space (sep : char) (s : str) :
  Forall (fun l => Main.is_blank l = true) (split sep s) ->
  isspace sep = true ->
  all_space s = true.
Proof.
  intros H Hsep. induction s as [|c r IH]; [reflexivity|].
  simpl in *. destruct (N.eqb_spec c sep) as [->|Hne].
  - inversion H; subst. rewrite Hsep. now apply IH.
  - destruct (split sep r) as [|h t] eqn:Er; [now destruct (split_not_nil sep r)|].
    inversion H as [|? ? Hh Ht]; subst.
    rewrite is_blank_all_space in Hh. simpl in Hh.
    apply andb_true_iff in Hh as [Hc Hh]. rewrite Hc. apply IH.
    constructor; [now rewrite is_blank_all_space | exact Ht].
Qed.

(* ================================================================= *)
(** ** The checks on one record *)

Lemma py_in_not_decode_error (key : str) (obj : value) (d : str) :
  py_in key obj <> Raise (JSONDecodeError d).
Proof. destruct obj; simpl; discriminate. Qed.

(** Detection never returns from the function, and leaves a locked format
    alone. *)
Lemma detect_format_locked (R : Type) (f : format) (data : value) :
  detect_format (R := R) (Some f) data = Norm (Some f).
Proof. reflexivity. Qed.

Lemma detect_format_no_return (R : Type) (ft : option format) (data : value)
  (r : R) :
  detect_format ft data <> Ret r.
Proof.
  destruct ft as [f|]; simpl; [discriminate|].
  destruct (py_in k_messages data) as [[|]|]; simpl; try discriminate.
  destruct (py_in k_prompt data) as [[|]|]; simpl; try discriminate.
  destruct (py_in k_completion data) as [[|]|]; simpl; discriminate.
Qed.

(** A rejection by the message loop names the loop's line. *)
Lemma for_messages_return (n : nat) (ms : list value) (r : Main.result) :
  Main.for_messages n ms = Ret r -> r = Main.reject n Main.BadMessage.
Proof.
  induction ms as [|m ms IH]; simpl; [discriminate|].
  destruct (lacks_role_or_content m) as [[|]|]; simpl.
  - now intros [= <-].
  - exact IH.
  - discriminate.
Qed.

Lemma check_record_return (ft : option format) (n : nat) (data : value)
  (r : Main.result) :
  Main.check_record ft n data = Ret r ->
  exists why, r = Main.reject n why.
Proof.
  destruct ft as [[|]|]; simpl.
  - unfold Main.check_chat.
    destruct (py_in k_messages data) as [[|]|]; simpl; try discriminate.
    + destruct (py_getitem data k_messages) as [v|]; simpl; try discriminate.
      destruct v as [| | | | |[|m ms]|]; try (intros [= <-]; eauto).
      intros H. apply for_messages_return in H. eauto.
    + intros [= <-]. eauto.
  - unfold Main.check_legacy.
    destruct (lacks_prompt_or_completion data) as [[|]|]; simpl;
      try discriminate.
    intros [= <-]. eauto.
  - discriminate.
Qed.

Lemma for_messages_line (n m : nat) (ms : list value) :
  same_up_to_line (Main.for_messages n ms) (Main.for_messages m ms).
Proof.
  induction ms as [|x ms IH]; simpl; [auto|].
  destruct (lacks_role_or_content x) as [[|]|]; simpl; auto.
Qed.

Lemma check_record_line (ft : option format) (n m : nat) (data : value) :
  same_up_to_line (Main.check_record ft n data) (Main.check_record ft m data).
Proof.
  destruct ft as [[|]|]; simpl; auto.
  - unfold Main.check_chat.
    destruct (py_in k_messages data) as [[|]|]; simpl; auto.
    destruct (py_getitem data k_messages) as [v|]; simpl; auto.
    destruct v as [| | | | |[|x ms]|]; auto.
    apply for_messages_line.
  - unfold Main.check_legacy.
    destruct (lacks_prompt_or_completion data) as [[|]|]; simpl; auto.
Qed.

(** A record that satisfies the rule of a format passes that format's
    check. *)
Lemma for_messages_ok (n : nat) (ms : list value) :
  forallb message_ok ms = true -> Main.for_messages n ms = Norm tt.
Proof.
  induction ms as [|m ms IH]; simpl; [reflexivity|].
  intros H. apply andb_true_iff in H as [Hm Hms].
  destruct m; try discriminate. simpl in Hm.
  apply andb_true_iff in Hm as [Hr Hc].
  unfold lacks_role_or_content. simpl. rewrite Hr, Hc. simpl. now apply IH.
Qed.

Lemma check_record_conforms (f : format) (n : nat) (data : value) :
  conforms f data = true -> Main.check_record (Some f) n data = Norm tt.
Proof.
  destruct f; simpl; destruct data; try discriminate; simpl.
  - unfold Main.check_chat. simpl. unfold has_key.
    destruct (dict_get k_messages fields) as [v|]; [|discriminate].
    simpl.
    destruct v as [| | | | |[|m ms]|]; try discriminate.
    apply (for_messages_ok n (m :: ms)).
  - intros H. apply andb_true_iff in H as [Hp Hc].
    unfold Main.check_legacy, lacks_prompt_or_completion. simpl.
    now rewrite Hp, Hc.
Qed.

(** Only the decoder raises [JSONDecodeError]. *)
Lemma detect_format_not_decode_error (R : Type) (ft : option format)
  (data : value) (d : str) :
  detect_format (R := R) ft data <> Exc (JSONDecodeError d).
Proof.
  destruct ft as [f|]; simpl; [discriminate|].
  destruct data; simpl; try discriminate;
    repeat match goal with
           | |- context [if ?b then _ else _] => destruct b; simpl
           end; discriminate.
Qed.

Lemma for_messages_not_decode_error (n : nat) (ms : list value) (d : str) :
  Main.for_messages n ms <> Exc (JSONDecodeError d).
Proof.
  induction ms as [|m ms IH]; simpl; [discriminate|].
  unfold lacks_role_or_content.
  destruct m; simpl; try discriminate;
    repeat match goal with
           | |- context [if ?b then _ else _] => destruct b; simpl
           end; try discriminate; exact IH.
Qed.

Lemma check_record_not_decode_error (ft : option format) (n : nat)
  (data : value) (d : str) :
  Main.check_record ft n data <> Exc (JSONDecodeError d).
Proof.
  destruct ft as [[|]|]; simpl; try discriminate.
  - unfold Main.check_chat.
    destruct data; simpl; try discriminate;
      try (destruct (existsb _ _); simpl; discriminate);
      try (destruct (str_contains _ _); simpl; discriminate).
    unfold has_key.
    destruct (dict_get k_messages fields) as [v|]; simpl; try discriminate.
    destruct v as [| | | | |[|m ms]|]; try discriminate.
    apply for_messages_not_decode_error.
  - unfold Main.check_legacy, lacks_prompt_or_completion.
    destruct data; simpl; try discriminate;
      repeat match goal with
             | |- context [if ?b then _ else _] => destruct b; simpl
             end; discriminate.
Qed.

Lemma bind_same_up_to_line {A B : Type} (c c' : ctl Main.result A)
  (k k' : A -> ctl Main.result B) :
  same_up_to_line c c' ->
  (forall a, same_up_to_line (k a) (k' a)) ->
  same_up_to_line (bind c k) (bind c' k').
Proof. intros [a|e|n m why] Hk; simpl; auto. Qed.

(* ================================================================= *)
(** ** One pass over the lines *)

Section Pass.

Variable json_loads : str -> res value.

Let body := Main.body json_loads.
Let for_lines := Main.for_lines json_loads.

Lemma body_blank (st : Main.state) (n : nat) (line : str) :
  Main.is_blank line = true -> body st n line = Norm st.
Proof. unfold body, Main.body. now intros ->. Qed.

(** A line that decodes: detection if the format is still open, the check
    of the format in force, and the record is counted. *)
Lemma body_record (st : Main.state) (n : nat) (line : str) (data : value) :
  Main.is_blank line = false ->
  json_loads line = Ok data ->
  body st n line
  = (ft <- detect_format (Main.format_type st) data ;;
     _ <- Main.check_record ft n data ;;
     Norm (Main.mkState (S (Main.line_count st)) ft)).
Proof.
  intros Hb Hd. unfold body, Main.body, Main.try_body. rewrite Hb, Hd.
  simpl.
  destruct (detect_format (Main.format_type st) data) as [ft|r|e] eqn:E;
    simpl; try reflexivity.
  - destruct (Main.check_record ft n data) as [[]|r|e] eqn:C; simpl;
      try reflexivity.
    destruct e; try reflexivity.
    now destruct (check_record_not_decode_error _ _ _ _ C).
  - destruct e; try reflexivity.
    now destruct (detect_format_not_decode_error _ _ _ _ E).
Qed.


Lemma body_norm (st st' : Main.state) (n : nat) (line : str) :
  body st n line = Norm st' ->
  Main.line_count st'
  = Main.line_count st + (if nonblank line then 1 else 0)
  /\ (forall f, Main.format_type st = Some f ->
                Main.format_type st' = Some f).
Proof.
  unfold nonblank.
  destruct (Main.is_blank line) eqn:Hb.
  - rewrite body_blank by assumption. intros [= <-]. simpl. split; [lia|auto].
  - destruct (json_loads line) as [data|e] eqn:Hd.
    + rewrite (body_record _ _ _ _ Hb Hd).
      destruct (detect_format (Main.format_type st) data) as [ft| |] eqn:E;
        simpl; try discriminate.
      destruct (Main.check_record ft n data) as [[]| |]; simpl;
        try discriminate.
      intros [= <-]. simpl. split; [lia|].
      intros f Hf. rewrite Hf in E. simpl in E. congruence.
    + unfold body, Main.body, Main.try_body. rewrite Hb, Hd. simpl.
      destruct e; discriminate.
Qed.

Lemma body_return (st : Main.state) (n : nat) (line : str)
  (r : Main.result) :
  body st n line = Ret r ->
  Main.is_blank line = false /\ exists why, r = Main.reject n why.
Proof.
  destruct (Main.is_blank line) eqn:Hb.
  - rewrite body_blank by assumption. discriminate.
  - intros H. split; [reflexivity|].
    destruct (json_loads line) as [data|e] eqn:Hd.
    + rewrite (body_record _ _ _ _ Hb Hd) in H.
      destruct (detect_format (Main.format_type st) data) as [ft| |] eqn:E;
        simpl in H; try discriminate.
      * destruct (Main.check_record ft n data) as [[]| |] eqn:C;
          simpl in H; try discriminate.
        injection H as <-. now apply check_record_return in C.
      * now destruct (detect_format_no_return _ _ _ _ E).
    + unfold body, Main.body, Main.try_body in H. rewrite Hb, Hd in H.
      destruct e; simpl in H; try discriminate.
      injection H as <-. eauto.
Qed.

Lemma body_line (st : Main.state) (n m : nat) (line : str) :
  same_up_to_line (body st n line) (body st m line).
Proof.
  destruct (Main.is_blank line) eqn:Hb.
  - rewrite !body_blank by assumption. constructor.
  - destruct (json_loads line) as [data|e] eqn:Hd.
    + rewrite !(body_record _ _ _ _ Hb Hd).
      apply bind_same_up_to_line.
      * destruct (detect_format (Main.format_type st) data) eqn:E;
          try constructor.
        now destruct (detect_format_no_return _ _ _ _ E).
      * intros ft. apply bind_same_up_to_line; [|constructor].
        apply check_record_line.
    + unfold body, Main.body, Main.try_body. rewrite Hb, Hd. simpl.
      destruct e; constructor.
Qed.

Lemma for_lines_app (st : Main.state) (n : nat) (a b : list str) :
  for_lines st n (a ++ b)
  = (st' <- for_lines st n a ;; for_lines st' (n + length a) b).
Proof.
  revert st n. induction a as [|l a IH]; intros st n; simpl.
  - now rewrite Nat.add_0_r.
  - fold body. destruct (body st n l) as [st1| |]; simpl; try reflexivity.
    rewrite IH. simpl. now rewrite Nat.add_succ_r.
Qed.

(** A pass that reaches the end has counted the non-blank lines. *)
Lemma for_lines_count (st st' : Main.state) (n : nat) (ls : list str) :
  for_lines st n ls = Norm st' ->
  Main.line_count st' = Main.line_count st + count_nonblank ls.
Proof.
  revert st n. induction ls as [|l ls IH]; intros st n; simpl.
  - intros [= <-]. unfold count_nonblank. simpl. lia.
  - fold body. destruct (body st n l) as [st1| |] eqn:Hl; simpl;
      try discriminate.
    intros H. apply IH in H. apply body_norm in Hl as [Hl _].
    rewrite count_nonblank_cons. lia.
Qed.

Lemma for_lines_locked (f : format) (st st' : Main.state) (n : nat)
  (ls : list str) :
  Main.format_type st = Some f ->
  for_lines st n ls = Norm st' ->
  Main.format_type st' = Some f.
Proof.
  revert st n. induction ls as [|l ls IH]; intros st n Hf; simpl.
  - now intros [= <-].
  - fold body. destruct (body st n l) as [st1| |] eqn:Hl; simpl;
      try discriminate.
    apply IH. now apply (body_norm _ _ _ _ Hl).
Qed.

(** A rejection names a non-blank line of the pass. *)
Lemma for_lines_return (st : Main.state) (n : nat) (ls : list str)
  (r : Main.result) :
  for_lines st n ls = Ret r ->
  exists k why line,
    r = Main.reject (n + k) why
    /\ nth_error ls k = Some line
    /\ Main.is_blank line = false.
Proof.
  revert st n. induction ls as [|l ls IH]; intros st n; simpl.
  - discriminate.
  - fold body. destruct (body st n l) as [st1|r1|] eqn:Hl; simpl;
      try discriminate.
    + intros H. apply IH in H as [k [why [line [-> [Hk Hb]]]]].
      exists (S k), why, line. rewrite Nat.add_succ_r. now repeat split.
    + intros [= <-]. apply body_return in Hl as [Hb [why ->]].
      exists 0, why, l. rewrite Nat.add_0_r. now repeat split.
Qed.

(** Blank lines change nothing but the line numbers of the lines after
    them. *)
Lemma for_lines_filter (st : Main.state) (n m : nat) (ls : list str) :
  same_up_to_line (for_lines st n ls)
                  (for_lines st m (filter nonblank ls)).
Proof.
  revert st n m. induction ls as [|l ls IH]; intros st n m; simpl.
  - constructor.
  - fold body. unfold nonblank at 1.
    destruct (Main.is_blank l) eqn:Hb; simpl.
    + rewrite body_blank by assumption. simpl. apply IH.
    + fold body. apply bind_same_up_to_line; [apply body_line|].
      intros a. apply IH.
Qed.

End Pass.

(* ================================================================= *)
(** ** The whole function *)

Lemma count_nonblank_zero (ls : list str) :
  count_nonblank ls = 0 -> Forall (fun l => Main.is_blank l = true) ls.
Proof.
  induction ls as [|l ls IH]; [constructor|].
  rewrite count_nonblank_cons. unfold nonblank.
  destruct (Main.is_blank l) eqn:Hb; simpl; [|discriminate].
  intros H. constructor; auto.
Qed.

Lemma state_eta (st : Main.state) :
  Main.mkState (Main.line_count st) (Main.format_type st) = st.
Proof. now destruct st. Qed.

Section Acceptance.

Variable json_loads : str -> res value.
Variable f : format.

(** Every record of [ls] decodes and satisfies the rule of [f]. *)
Let all_conform (ls : list str) : Prop :=
  forall line, In line ls -> nonblank line = true ->
    exists data, json_loads line = Ok data /\ conforms f data = true.

Lemma for_lines_conform_locked (st : Main.state) (n : nat) (ls : list str) :
  Main.format_type st = Some f ->
  all_conform ls ->
  Main.for_lines json_loads st n ls
  = Norm (Main.mkState (Main.line_count st + count_nonblank ls) (Some f)).
Proof.
  revert st n. induction ls as [|l ls IH]; intros st n Hf Hall; simpl.
  - unfold count_nonblank. simpl. rewrite Nat.add_0_r, <- Hf.
    now rewrite state_eta.
  - rewrite count_nonblank_cons.
    destruct (nonblank l) eqn:Hn.
    + destruct (Hall l (or_introl eq_refl) Hn) as [data [Hd Hc]].
      unfold nonblank in Hn. apply negb_true_iff in Hn.
      rewrite (body_record json_loads _ _ _ _ Hn Hd), Hf.
      cbn [bind detect_format].
      rewrite (check_record_conforms _ _ _ Hc). cbn [bind].
      rewrite IH; simpl; auto.
      * f_equal. f_equal. lia.
      * intros x Hx. apply Hall. now right.
    + unfold nonblank in Hn. apply negb_false_iff in Hn.
      rewrite (body_blank json_loads _ _ _ Hn). simpl.
      rewrite IH; auto.
      intros x Hx. apply Hall. now right.
Qed.

Lemma for_lines_conform (n : nat) (c : nat) (ls : list str) :
  all_conform ls ->
  (forall line data,
      first_record ls = Some line -> json_loads line = Ok data ->
      detect_format (R := Main.result) None data = Norm (Some f)) ->
  Main.for_lines json_loads (Main.mkState c None) n ls
  = Norm (Main.mkState (c + count_nonblank ls)
            (match first_record ls with Some _ => Some f | None => None end)).
Proof.
  revert n. induction ls as [|l ls IH]; intros n Hall Hfirst; simpl.
  - unfold count_nonblank. simpl. now rewrite Nat.add_0_r.
  - rewrite count_nonblank_cons. unfold first_record in *.
    cbn [find] in *.
    destruct (nonblank l) eqn:Hn.
    + destruct (Hall l (or_introl eq_refl) Hn) as [data [Hd Hc]].
      unfold nonblank in Hn. apply negb_true_iff in Hn.
      rewrite (body_record json_loads _ _ _ _ Hn Hd).
      cbn [Main.format_type]. rewrite (Hfirst l data eq_refl Hd).
      cbn [bind].
      rewrite (check_record_conforms _ _ _ Hc). cbn [bind].
      rewrite for_lines_conform_locked; simpl; auto.
      * f_equal. f_equal. lia.
      * intros x Hx. apply Hall. now right.
    + unfold nonblank in Hn. apply negb_false_iff in Hn.
      rewrite (body_blank json_loads _ _ _ Hn). simpl.
      rewrite IH; auto.
      intros x Hx. apply Hall. now right.
Qed.

End Acceptance.

Section Undetermined.

Variable json_loads : str -> res value.


End Undetermined.

(* ================================================================= *)
(** * Properties of [validate_jsonl] *)

(** The scenarios of the specification, on the example decoder. *)
Example scenario_two_chat_records :
  Main.validate_jsonl Json.loads chat_two_lines
  = Ok (true, Main.label_chat ++ u ": 2" ++ Main.samples, 2).
Proof. reflexivity. Qed.

Example scenario_one_legacy_record :
  Main.validate_jsonl Json.loads legacy_one_line
  = Ok (true, Main.label_legacy ++ u ": 1" ++ Main.samples, 1).
Proof. reflexivity. Qed.

Example scenario_empty_messages :
  Main.validate_jsonl Json.loads (js "{'messages':[]}")
  = Ok (false, Main.message 1 Main.MessagesInvalid, 0).
Proof. reflexivity. Qed.

Example scenario_message_without_content :
  Main.validate_jsonl Json.loads (js "{'messages':[{'role':'user'}]}")
  = Ok (false, Main.message 1 Main.BadMessage, 0).
Proof. reflexivity. Qed.

Example scenario_malformed_second_line :
  Main.validate_jsonl Json.loads
    (join_lines [js "{'messages':[{'role':'user','content':'hi'}]}";
                 u "not valid json"])
  = Ok (false,
        Main.message 2
          (Main.JsonError (u "Expecting value: line 1 column 1 (char 0)")),
        0).
Proof. reflexivity. Qed.

(** C7: an input with no non-blank line is accepted with a count of zero, and
    the detail carries the fallback label of the legacy format although no
    format was detected. *)
Theorem empty_input_labelled_legacy (json_loads : str -> res value)
  (content : str) :
  count_nonblank (split LF content) = 0 ->
  Main.validate_jsonl json_loads content
  = Ok (true, Main.label_legacy ++ u ": 0" ++ Main.samples, 0).
Proof.
  intros H. apply count_nonblank_zero in H.
  apply all_blank_lines_all_space in H; [|reflexivity].
  unfold Main.validate_jsonl, strip.
  apply lstrip_nil in H. rewrite H. reflexivity.
Qed.

Lemma empty_input_labelled_legacy_witness :
  count_nonblank (split LF (u "  " ++ [LF; LF] ++ u " ")) = 0
  /\ Main.validate_jsonl Json.loads (u "  " ++ [LF; LF] ++ u " ")
     = Ok (true, Main.label_legacy ++ u ": 0" ++ Main.samples, 0).
Proof.
  split; [reflexivity|].
  apply (empty_input_labelled_legacy Json.loads). reflexivity.
Defined.

(** C9: whenever the validator of main.py returns ok = false, the count it
    returns with it is 0, however many records came before the offending
    line. *)
Theorem rejection_count_is_zero (json_loads : str -> res value)
  (content detail : str) (n : nat) :
  Main.validate_jsonl json_loads content = Ok (false, detail, n) ->
  n = 0.
Proof.
  unfold Main.validate_jsonl, Main.validate_lines.
  destruct (Main.for_lines json_loads Main.init 1 (split LF (strip content)))
    as [st|r|e] eqn:E; simpl; try discriminate.
  intros [= ->].
  apply for_lines_return in E as [k [why [line [Hr _]]]].
  unfold Main.reject in Hr. congruence.
Qed.

Lemma rejection_count_is_zero_witness :
  Main.validate_jsonl Json.loads
    (join_lines [legacy_one_line; legacy_one_line; js "{'prompt':'Q'}"])
  = Ok (false, Main.message 3 Main.NoPromptCompletion, 0)
  /\ 0 = 0.
Proof.
  split; [reflexivity|].
  symmetry.
  apply (rejection_count_is_zero Json.loads
           (join_lines [legacy_one_line; legacy_one_line; js "{'prompt':'Q'}"])
           (Main.message 3 Main.NoPromptCompletion) 0).
  reflexivity.
Defined.

(** C4: when every non-blank line decodes to a record that satisfies the
    structural rule of the detected format, the validator returns ok = true
    and a count equal to the number of non-blank lines of the text. *)
Theorem valid_input_accepted (json_loads : str -> res value) (f : format)
  (content : str) :
  (forall line,
      In line (split LF (strip content)) -> nonblank line = true ->
      exists data, json_loads line = Ok data /\ conforms f data = true) ->
  (forall line data,
      first_record (split LF (strip content)) = Some line ->
      json_loads line = Ok data ->
      detect_format (R := Main.result) None data = Norm (Some f)) ->
  exists detail,
    Main.validate_jsonl json_loads content
    = Ok (true, detail, count_nonblank (split LF content)).
Proof.
  intros Hall Hfirst.
  unfold Main.validate_jsonl, Main.validate_lines, Main.init.
  rewrite (for_lines_conform json_loads f 1 0 _ Hall Hfirst).
  cbn [Main.finish Main.accept Main.line_count Nat.add].
  rewrite count_nonblank_strip. eexists. reflexivity.
Qed.

Lemma valid_input_accepted_witness :
  exists detail,
    Main.validate_jsonl Json.loads chat_two_lines
    = Ok (true, detail, count_nonblank (split LF chat_two_lines)).
Proof.
  apply (valid_input_accepted Json.loads chat chat_two_lines).
  - intros line Hin _. vm_compute in Hin.
    destruct Hin as [<-|[<-|[]]]; eexists; split; vm_compute; reflexivity.
  - intros line data Hfirst Hd. vm_compute in Hfirst.
    injection Hfirst as <-. vm_compute in Hd. injection Hd as <-.
    reflexivity.
Defined.






(** A line of the text trimmed on the right is, at the same index, a line of
    the text itself, up to white space at its end. *)
Lemma split_rstrip_nth (s : str) (pre : list str) (x : str)
  (rest : list str) :
  split LF (rstrip s) = pre ++ x :: rest ->
  exists w,
    all_space w = true
    /\ nth_error (split LF s) (length pre) = Some (x ++ w).
Proof.
  intros Hs.
  destruct (rstrip_decompose s) as [w0 [Hw0 Es]].
  destruct (split LF w0) as [|y back] eqn:Ew; [now destruct (split_not_nil LF w0)|].
  pose proof (split_all_space LF w0 Hw0) as Hall. rewrite Ew in Hall.
  inversion Hall as [|? ? Hy _]; subst.
  rewrite is_blank_all_space in Hy.
  destruct rest as [|r0 rest'] using rev_ind.
  - exists y. split; [assumption|].
    rewrite Es, (split_app _ _ _ _ _ _ _ Hs Ew).
    now rewrite nth_error_app2, Nat.sub_diag by lia.
  - exists []. split; [reflexivity|]. clear IHrest'.
    assert (Hs' : split LF (rstrip s) = (pre ++ x :: rest') ++ [r0]).
    { rewrite Hs, <- app_assoc. reflexivity. }
    rewrite Es, (split_app _ _ _ _ _ _ _ Hs' Ew), <- !app_assoc.
    rewrite nth_error_app2, Nat.sub_diag by lia.
    simpl. now rewrite List.app_nil_r.
Qed.




(** The lines are numbered after the text is trimmed: blank lines at the head
    of the text are not counted, and the malformed third line of this text
    is reported as line 1. *)
Example leading_blank_lines_shift_the_number :
  split LF ([LF; LF] ++ u "not valid json")
  = [[]; []; u "not valid json"]
  /\ Main.validate_jsonl Json.loads ([LF; LF] ++ u "not valid json")
     = Ok (false,
           Main.message 1
             (Main.JsonError (u "Expecting value: line 1 column 1 (char 0)")),
           0).
Proof. split; reflexivity. Qed.

(** C3 fails on the code: a chat record whose [messages] holds a number makes
    ['role' in msg] raise [TypeError], which the handler for
    [JSONDecodeError] does not catch, so the call raises instead of
    returning a rejection. *)
Theorem non_mapping_message_raises :
  Json.loads (js "{'messages':[1]}")
  = Ok (VDict [(k_messages, VList [VInt 1])])
  /\ Main.validate_jsonl Json.loads (js "{'messages':[1]}") = Raise TypeError.
Proof. split; reflexivity. Qed.

(** The membership tests are those of any container: a message that is a
    string passes when the words occur in it, and a record that is a number
    raises before any check. *)
Example string_message_passes :
  Main.validate_jsonl Json.loads (js "{'messages':['role content']}")
  = Ok (true, Main.label_chat ++ u ": 1" ++ Main.samples, 1).
Proof. reflexivity. Qed.

Example number_record_raises :
  Main.validate_jsonl Json.loads (u "1") = Raise TypeError.
Proof. reflexivity. Qed.

(** C5: once a format is locked it stays the format of every later state of
    the pass, and each later record skips detection and meets the check of
    the locked format, which a record shaped like the other format fails. *)
Theorem locked_format_is_kept (json_loads : str -> res value) (f : format)
  (st st' : Main.state) (n : nat) (pre : list str) :
  Main.format_type st = Some f ->
  Main.for_lines json_loads st n pre = Norm st' ->
  Main.format_type st' = Some f
  /\ (forall line data,
         nonblank line = true -> json_loads line = Ok data ->
         Main.body json_loads st' (n + length pre) line
         = (_ <- Main.check_record (Some f) (n + length pre) data ;;
            Norm (Main.mkState (S (Main.line_count st')) (Some f))))
  /\ (forall line d,
         nonblank line = true -> json_loads line = Ok (VDict d) ->
         conforms f (VDict d) = false ->
         match f with
         | chat => has_key k_messages d = false
         | legacy => True
         end ->
         Main.body json_loads st' (n + length pre) line
         = Ret (Main.reject (n + length pre)
                  (match f with
                   | chat => Main.NoMessagesKey
                   | legacy => Main.NoPromptCompletion
                   end))).
Proof.
  intros Hf Hpre.
  pose proof (for_lines_locked json_loads f _ _ _ _ Hf Hpre) as Hf'.
  assert (Hrec : forall line data,
             nonblank line = true -> json_loads line = Ok data ->
             Main.body json_loads st' (n + length pre) line
             = (_ <- Main.check_record (Some f) (n + length pre) data ;;
                Norm (Main.mkState (S (Main.line_count st')) (Some f)))).
  { intros line data Hn Hd. unfold nonblank in Hn. apply negb_true_iff in Hn.
    rewrite (body_record json_loads _ _ _ _ Hn Hd), Hf'. reflexivity. }
  repeat split; [exact Hf' | exact Hrec |].
  intros line d Hn Hd Hc Hk. rewrite (Hrec _ _ Hn Hd).
  destruct f; cbn [Main.check_record].
  - unfold Main.check_chat. cbn [py_in lift bind]. now rewrite Hk.
  - unfold Main.check_legacy, lacks_prompt_or_completion.
    cbn [py_in conforms legacy_record] in *.
    destruct (has_key k_prompt d); [|reflexivity].
    destruct (has_key k_completion d); [discriminate|reflexivity].
Qed.

Lemma locked_format_is_kept_witness :
  Main.for_lines Json.loads (Main.mkState 1 (Some chat)) 2
    [js "{'messages':[{'role':'assistant','content':'hello'}]}"]
  = Norm (Main.mkState 2 (Some chat))
  /\ Main.body Json.loads (Main.mkState 2 (Some chat)) 3 legacy_one_line
     = Ret (Main.reject 3 Main.NoMessagesKey).
Proof.
  split; [reflexivity|].
  destruct (locked_format_is_kept Json.loads chat
              (Main.mkState 1 (Some chat)) (Main.mkState 2 (Some chat)) 2
              [js "{'messages':[{'role':'assistant','content':'hello'}]}"]
              eq_refl eq_refl) as [_ [_ H]].
  apply (H legacy_one_line
           [(k_prompt, VStr (u "Q")); (k_completion, VStr (u "A"))]);
    reflexivity.
Defined.

(** Blank lines inside the loop: a line that is empty after trimming leaves
    the state of the pass as it was, so it is not counted and detection does
    not see it; deleting the blank lines changes the outcome of the pass in
    nothing but the line numbers of its messages; an accepted text has as
    count the number of its non-blank lines; and the line that a rejection
    names, among the lines the loop enumerates, is not blank (it is the line
    of that number in the supplied text when the text does not begin with
    white space). *)
Lemma blank_lines_are_inert (json_loads : str -> res value)
  (content : str) :
  (forall st n line,
      Main.is_blank line = true -> Main.body json_loads st n line = Norm st)
  /\ same_up_to_line
       (Main.for_lines json_loads Main.init 1 (split LF (strip content)))
       (Main.for_lines json_loads Main.init 1
          (filter nonblank (split LF (strip content))))
  /\ (forall detail n,
         Main.validate_jsonl json_loads content = Ok (true, detail, n) ->
         n = count_nonblank (split LF content))
  /\ (forall detail n,
         Main.validate_jsonl json_loads content = Ok (false, detail, n) ->
         exists k why line,
           detail = Main.message (S k) why
           /\ nth_error (split LF (strip content)) k = Some line
           /\ Main.is_blank line = false
           /\ (lstrip content = content ->
               exists w,
                 nth_error (split LF content) k = Some (line ++ w)
                 /\ Main.is_blank (line ++ w) = false)).
Proof.
  repeat split.
  - intros st n line. apply body_blank.
  - apply for_lines_filter.
  - unfold Main.validate_jsonl, Main.validate_lines.
    destruct (Main.for_lines json_loads Main.init 1 (split LF (strip content)))
      as [st|r|e] eqn:E; simpl; try discriminate.
    + intros detail n [= _ <-]. apply for_lines_count in E.
      now rewrite count_nonblank_strip in E.
    + intros detail n [= ->].
      apply for_lines_return in E as [k [why [line [Hr _]]]]. discriminate.
  - unfold Main.validate_jsonl, Main.validate_lines.
    destruct (Main.for_lines json_loads Main.init 1 (split LF (strip content)))
      as [st|r|e] eqn:E; simpl; try discriminate.
    intros detail n [= ->].
    apply for_lines_return in E as [k [why [line [Hr [Hk Hb]]]]].
    exists k, why, line. injection Hr as -> _.
    repeat split; try assumption.
    intros Hl. unfold strip in Hk. rewrite Hl in Hk.
    apply nth_error_split in Hk as [pre [rest [Hs <-]]].
    destruct (split_rstrip_nth _ _ _ _ Hs) as [w [Hw Hn]].
    exists w. split; [assumption|].
    now rewrite is_blank_app, Hb.
Qed.

(** C6 fails on the code: the text is trimmed before it is split, so the
    lines are numbered from the first non-blank one; here line 1 of the
    supplied text is blank, line 2 does not decode, and the rejection names
    line 1. *)
Theorem blank_first_line_is_named :
  split LF ([LF] ++ u "not valid json") = [[]; u "not valid json"]
  /\ Main.is_blank [] = true
  /\ Main.validate_jsonl Json.loads ([LF] ++ u "not valid json")
     = Ok (false,
           Main.message 1
             (Main.JsonError (u "Expecting value: line 1 column 1 (char 0)")),
           0)
  /\ Upload.validate_lines Json.loads (fun _ => [])
       [[LF]; u "not valid json"]
     = (false,
        Upload.msg_json 2 (u "Expecting value: line 1 column 1 (char 0)")).
Proof. repeat split; reflexivity. Qed.


(* ================================================================= *)
(** ** The two validators *)

Lemma for_messages_same_verdict (n : nat) (ms : list value) :
  same_verdict (Main.for_messages n ms) (Upload.for_messages n ms).
Proof.
  induction ms as [|m ms IH]; simpl; [constructor|].
  destruct (lacks_role_or_content m) as [[|]|]; simpl;
    try constructor; exact IH.
Qed.

Lemma check_record_same_verdict (ft : option format) (n : nat)
  (data : value) :
  same_verdict (Main.check_record ft n data) (Upload.check_record ft n data).
Proof.
  destruct ft as [[|]|]; simpl; try constructor.
  - unfold Main.check_chat, Upload.check_chat.
    destruct (py_in k_messages data) as [[|]|]; simpl; try constructor.
    destruct (py_getitem data k_messages) as [v|]; simpl; try constructor.
    destruct v as [| | | | |[|m ms]|]; try constructor.
    apply for_messages_same_verdict.
  - unfold Main.check_legacy, Upload.check_legacy.
    destruct (lacks_prompt_or_completion data) as [[|]|]; simpl; constructor.
Qed.

(** Detection does not depend on what the enclosing function returns. *)
Lemma detect_format_any_result (R1 R2 : Type) (ft : option format)
  (data : value) :
  (forall x, detect_format (R := R1) ft data = Norm x ->
             detect_format (R := R2) ft data = Norm x)
  /\ (forall e, detect_format (R := R1) ft data = Exc e ->
                detect_format (R := R2) ft data = Exc e).
Proof.
  destruct ft as [f|]; simpl; [split; congruence|].
  destruct (py_in k_messages data) as [[|]|]; simpl; try (split; congruence).
  destruct (py_in k_prompt data) as [[|]|]; simpl; try (split; congruence).
  destruct (py_in k_completion data) as [[|]|]; simpl; split; congruence.
Qed.

Section TwoValidators.

Variable json_loads : str -> res value.
Variable exc_str : exn -> str.
Variable file_lines : str -> option (list str).

Lemma body_same_verdict (st : Main.state) (n : nat) (line : str) :
  same_verdict (Main.body json_loads st n line)
               (Upload.body json_loads st n line).
Proof.
  unfold Main.body, Upload.body, Main.try_body, Upload.try_body.
  destruct (Main.is_blank line); [constructor|].
  destruct (json_loads line) as [data|e]; simpl.
  - destruct (detect_format_any_result Main.result Upload.result
                (Main.format_type st) data) as [HN HE].
    destruct (detect_format (Main.format_type st) data) as [ft|r|e] eqn:E.
    + rewrite (HN ft eq_refl). simpl.
      destruct (check_record_same_verdict ft n data) as [[]|e|d1 d2];
        simpl; try constructor.
      destruct e; constructor.
    + now destruct (detect_format_no_return _ _ _ _ E).
    + rewrite (HE e eq_refl). simpl. destruct e; constructor.
  - destruct e; constructor.
Qed.

Lemma for_lines_same_verdict (st : Main.state) (n : nat) (ls : list str) :
  same_verdict (Main.for_lines json_loads st n ls)
               (Upload.for_lines json_loads st n ls).
Proof.
  revert st n. induction ls as [|l ls IH]; intros st n; simpl;
    [constructor|].
  destruct (body_same_verdict st n l); simpl; try constructor.
  apply IH.
Qed.


End TwoValidators.



(* ================================================================= *)
(** * Further properties of the validators *)

Lemma lstrip_app (a b : str) :
  lstrip (a ++ b) = if all_space a then lstrip b else lstrip a ++ b.
Proof.
  induction a as [|c r IH]; simpl; [reflexivity|].
  destruct (isspace c); simpl; [exact IH | reflexivity].
Qed.

Lemma rstrip_app_space (s w : str) :
  all_space w = true -> rstrip (s ++ w) = rstrip s.
Proof.
  intros Hw. induction s as [|c r IH]; simpl.
  - now apply rstrip_nil.
  - now rewrite IH.
Qed.

Lemma strip_app_space_r (s w : str) :
  all_space w = true -> strip (s ++ w) = strip s.
Proof.
  intros Hw. unfold strip. rewrite lstrip_app.
  destruct (all_space s) eqn:Hs.
  - apply lstrip_nil in Hs. apply lstrip_nil in Hw. now rewrite Hs, Hw.
  - now apply rstrip_app_space.
Qed.

Lemma strip_app_space_l (w s : str) :
  all_space w = true -> strip (w ++ s) = strip s.
Proof. intros Hw. unfold strip. now rewrite lstrip_app, Hw. Qed.

(** X1: white space around the text (blank lines before it, a final line
    feed, indentation of the first line) changes nothing in the outcome, not
    even the line numbers of a rejection, which count from the first
    non-blank line. *)
Theorem surrounding_space_is_ignored (json_loads : str -> res value)
  (before content after : str) :
  all_space before = true ->
  all_space after = true ->
  Main.validate_jsonl json_loads (before ++ content ++ after)
  = Main.validate_jsonl json_loads content.
Proof.
  intros Hb Ha. unfold Main.validate_jsonl.
  now rewrite strip_app_space_l, strip_app_space_r.
Qed.

Lemma surrounding_space_is_ignored_witness :
  Main.validate_jsonl Json.loads
    ([LF; LF] ++ u "not valid json" ++ u "  " ++ [LF])
  = Main.validate_jsonl Json.loads (u "not valid json").
Proof.
  apply (surrounding_space_is_ignored Json.loads [LF; LF]
           (u "not valid json") (u "  " ++ [LF])); reflexivity.
Defined.

(** X2: the first failure decides: when the pass over the first lines of the
    trimmed text ends in a rejection or an exception, the whole call ends
    in that same rejection or exception, whatever the lines after them. *)
Theorem first_failure_is_final (json_loads : str -> res value)
  (content : str) (first rest : list str) :
  split LF (strip content) = first ++ rest ->
  match Main.validate_lines json_loads first with
  | Ok (true, _, _) => True
  | failure => Main.validate_jsonl json_loads content = failure
  end.
Proof.
  intros Hs. unfold Main.validate_jsonl, Main.validate_lines.
  rewrite Hs, for_lines_app.
  destruct (Main.for_lines json_loads Main.init 1 first) as [st|r|e] eqn:E;
    simpl.
  - exact I.
  - apply for_lines_return in E as [k [why [line [-> _]]]]. reflexivity.
  - reflexivity.
Qed.

Lemma first_failure_is_final_witness :
  Main.validate_jsonl Json.loads
    (join_lines [js "{'messages':[]}"; legacy_one_line; u "x"])
  = Ok (false, Main.message 1 Main.MessagesInvalid, 0).
Proof.
  exact (first_failure_is_final Json.loads
           (join_lines [js "{'messages':[]}"; legacy_one_line; u "x"])
           [js "{'messages':[]}"] [legacy_one_line; u "x"] eq_refl).
Defined.

Section Soundness.

Variable json_loads : str -> res value.

(** What the pass has established of a record once it is over with the
    format [ft]: the record decoded, and either detection found no format in
    it or it passed the check of [ft]. *)
Let passed (ft : option format) (line : str) : Prop :=
  exists data,
    json_loads line = Ok data
    /\ scalar data = false
    /\ (unrecognised data
        \/ exists f, ft = Some f
                     /\ forall n, Main.check_record (Some f) n data = Norm tt).

Lemma detect_format_container (ft ft' : option format) (data : value) :
  detect_format (R := Main.result) ft data = Norm ft' ->
  ft = None -> scalar data = false.
Proof. intros H ->. destruct data; simpl in *; congruence. Qed.

Lemma check_record_container (f : format) (n : nat) (data : value) :
  Main.check_record (Some f) n data = Norm tt -> scalar data = false.
Proof.
  destruct f; simpl; unfold Main.check_chat, Main.check_legacy,
    lacks_prompt_or_completion; destruct data; simpl; congruence.
Qed.

Lemma check_record_any_line (ft : option format) (n m : nat) (data : value) :
  Main.check_record ft n data = Norm tt ->
  Main.check_record ft m data = Norm tt.
Proof.
  intros H. pose proof (check_record_line ft n m data) as L.
  rewrite H in L. now inversion L.
Qed.

Lemma for_lines_sound (st st' : Main.state) (n : nat) (ls : list str) :
  Main.for_lines json_loads st n ls = Norm st' ->
  forall line, In line ls -> nonblank line = true ->
               passed (Main.format_type st') line.
Proof.
  revert st n. induction ls as [|l ls IH]; intros st n H line Hin Hn;
    [destruct Hin|].
  simpl in H.
  destruct (Main.body json_loads st n l) as [st1| |] eqn:Hl; simpl in H;
    try discriminate.
  destruct Hin as [<-|Hin]; [|exact (IH _ _ H _ Hin Hn)].
  unfold nonblank in Hn. apply negb_true_iff in Hn.
  destruct (json_loads l) as [data|e] eqn:Hd.
  - rewrite (body_record json_loads _ _ _ _ Hn Hd) in Hl.
    destruct (detect_format (Main.format_type st) data) as [ft| |] eqn:E;
      simpl in Hl; try discriminate.
    destruct (Main.check_record ft n data) as [[]| |] eqn:C; simpl in Hl;
      try discriminate.
    injection Hl as <-. exists data. split; [exact Hd|].
    destruct ft as [f|].
    + split; [exact (check_record_container _ _ _ C)|].
      right. exists f. split.
      * exact (for_lines_locked json_loads f
                 (Main.mkState (S (Main.line_count st)) (Some f)) st' (S n) ls
                 eq_refl H).
      * intros m. exact (check_record_any_line _ _ _ _ C).
    + assert (Hft : Main.format_type st = None).
      { destruct (Main.format_type st); [discriminate E | reflexivity]. }
      split; [exact (detect_format_container _ _ _ E Hft)|].
      left. unfold unrecognised. rewrite Hft in E. exact E.
  - unfold Main.body, Main.try_body in Hl. rewrite Hn, Hd in Hl.
    destruct e; discriminate.
Qed.

(** X3: an accepted text is sound: every non-blank line of it decoded to a
    dict, a list or a string, and each of these records either showed no
    format to detection or passed the check of the format that the detail
    names. *)
Theorem accepted_records_pass (content detail : str) (n : nat) :
  Main.validate_jsonl json_loads content = Ok (true, detail, n) ->
  exists ft,
    Main.accept (Main.mkState n ft) = (true, detail, n)
    /\ forall line,
         In line (split LF (strip content)) -> nonblank line = true ->
         exists data,
           json_loads line = Ok data
           /\ scalar data = false
           /\ (unrecognised data
               \/ exists f, ft = Some f
                            /\ forall k,
                                 Main.check_record (Some f) k data = Norm tt).
Proof.
  unfold Main.validate_jsonl, Main.validate_lines.
  destruct (Main.for_lines json_loads Main.init 1 (split LF (strip content)))
    as [st|r|e] eqn:E; simpl; try discriminate.
  - intros H. exists (Main.format_type st).
    assert (Hn : Main.line_count st = n) by (unfold Main.accept in H; congruence).
    split.
    + rewrite <- Hn, state_eta. congruence.
    + exact (for_lines_sound _ _ _ _ E).
  - intros [= ->].
    apply for_lines_return in E as [k [why [line [Hr _]]]]. discriminate.
Qed.

End Soundness.

Lemma accepted_records_pass_witness :
  exists ft,
    Main.accept (Main.mkState 2 ft)
    = (true, Main.label_chat ++ u ": 2" ++ Main.samples, 2)
    /\ forall line,
         In line (split LF (strip chat_two_lines)) -> nonblank line = true ->
         exists data,
           Json.loads line = Ok data
           /\ scalar data = false
           /\ (unrecognised data
               \/ exists f, ft = Some f
                            /\ forall k,
                                 Main.check_record (Some f) k data = Norm tt).
Proof.
  apply (accepted_records_pass Json.loads chat_two_lines). reflexivity.
Defined.

(* ================================================================= *)
(** ** The file-based validator against the one of main.py *)

Ltac report :=
  first [ apply sr_norm | apply sr_exc
        | apply sr_ret; simpl;
          first [reflexivity | left; reflexivity | right; reflexivity] ].

Lemma for_messages_same_report (n : nat) (ms : list value) :
  same_report (Main.for_messages n ms) (Upload.for_messages n ms).
Proof.
  induction ms as [|m ms IH]; simpl; [report|].
  destruct (lacks_role_or_content m) as [[|]|]; simpl;
    [report | exact IH | report].
Qed.

Lemma check_record_same_report (ft : option format) (n : nat)
  (data : value) :
  same_report (Main.check_record ft n data) (Upload.check_record ft n data).
Proof.
  destruct ft as [[|]|]; simpl; try report.
  - unfold Main.check_chat, Upload.check_chat.
    destruct (py_in k_messages data) as [[|]|]; simpl; try report.
    destruct (py_getitem data k_messages) as [v|]; simpl; try report.
    destruct v as [| | | | |[|m ms]|]; try report.
    apply for_messages_same_report.
  - unfold Main.check_legacy, Upload.check_legacy.
    destruct (lacks_prompt_or_completion data) as [[|]|]; simpl; report.
Qed.

(** The message of main.py determines the line and the reason. *)
Lemma digits_are_digits (d : Decimal.uint) :
  Forall (fun c => (N.leb 48 c && N.leb c 57) = true) (digits d).
Proof. induction d; simpl; constructor; auto. Qed.

Lemma digits_inj (d d' : Decimal.uint) : digits d = digits d' -> d = d'.
Proof.
  revert d'. induction d; destruct d'; simpl; intros H;
    try discriminate H; try reflexivity;
    injection H as H; f_equal; now apply IHd.
Qed.

Lemma str_of_nat_inj (n k : nat) : str_of_nat n = str_of_nat k -> n = k.
Proof.
  unfold str_of_nat. intros H. apply digits_inj in H.
  now apply DecimalNat.Unsigned.to_uint_inj.
Qed.

Lemma digits_delimited (a b t t' : str) :
  Forall (fun c => (N.leb 48 c && N.leb c 57) = true) a ->
  Forall (fun c => (N.leb 48 c && N.leb c 57) = true) b ->
  a ++ 58%N :: t = b ++ 58%N :: t' ->
  a = b /\ t = t'.
Proof.
  intros Ha. revert b. induction Ha as [|x a Hx Ha IH]; intros b Hb H.
  - destruct Hb as [|y b Hy Hb]; simpl in H.
    + injection H as ->. now split.
    + injection H as <- _. discriminate Hy.
  - destruct Hb as [|y b Hy Hb]; simpl in H.
    + injection H as -> _. discriminate Hx.
    + injection H as -> H. destruct (IH b Hb H) as [-> ->]. now split.
Qed.

Lemma reason_text_head (why : Main.reason) :
  exists t, Main.reason_text why = 58%N :: t.
Proof. destruct why; eexists; reflexivity. Qed.

Lemma reason_text_inj (w w' : Main.reason) :
  Main.reason_text w = Main.reason_text w' -> w = w'.
Proof.
  destruct w, w'; simpl; intros H; try reflexivity; try discriminate H.
  f_equal. congruence.
Qed.

Lemma message_tail_inj (n k : nat) (w w' : Main.reason) :
  str_of_nat n ++ Main.reason_text w = str_of_nat k ++ Main.reason_text w' ->
  n = k /\ w = w'.
Proof.
  intros H.
  destruct (reason_text_head w) as [t Ht].
  destruct (reason_text_head w') as [t' Ht'].
  rewrite Ht, Ht' in H.
  apply digits_delimited in H as [Hn Ht0]; try apply digits_are_digits.
  split; [now apply str_of_nat_inj|].
  apply reason_text_inj. congruence.
Qed.

Lemma message_inj (n k : nat) (w w' : Main.reason) :
  Main.message n w = Main.message k w' -> n = k /\ w = w'.
Proof.
  unfold Main.message. intros H. injection H as H.
  now apply message_tail_inj.
Qed.

Section SameReport.

Variable json_loads : str -> res value.
Variable exc_str : exn -> str.

Lemma body_same_report (st : Main.state) (n : nat) (line : str) :
  same_report (Main.body json_loads st n line)
              (Upload.body json_loads st n line).
Proof.
  unfold Main.body, Upload.body, Main.try_body, Upload.try_body.
  destruct (Main.is_blank line); [report|].
  destruct (json_loads line) as [data|e]; simpl.
  - destruct (detect_format_any_result Main.result Upload.result
                (Main.format_type st) data) as [HN HE].
    destruct (detect_format (Main.format_type st) data) as [ft|r|e] eqn:E.
    + rewrite (HN ft eq_refl). simpl.
      destruct (check_record_same_report ft n data) as [[]|e|k why m Hm];
        simpl; try report.
      * destruct e; report.
      * now apply sr_ret.
    + now destruct (detect_format_no_return _ _ _ _ E).
    + rewrite (HE e eq_refl). simpl. destruct e; report.
  - destruct e; report.
Qed.

Lemma for_lines_same_report (st : Main.state) (n : nat) (ls : list str) :
  same_report (Main.for_lines json_loads st n ls)
              (Upload.for_lines json_loads st n ls).
Proof.
  revert st n. induction ls as [|l ls IH]; intros st n; simpl;
    [report|].
  destruct (body_same_report st n l) as [a|e|k why m Hm]; simpl;
    [apply IH | report | now apply sr_ret].
Qed.

(** X4: on the same lines the file-based validator reports what the one of
    main.py reports.  When main.py accepts, it accepts with the same count
    and the label of the same format; when main.py rejects line N for some
    reason, which every rejection of main.py does, it returns the message
    that it has for that reason with that same N; and where main.py raises,
    it returns a rejection that carries the text of the exception. *)
Theorem upload_reports_same_line (lines : list str) :
  (forall detail n,
      Main.validate_lines json_loads lines = Ok (true, detail, n) ->
      exists is_chat : bool,
        detail
        = (if is_chat then Main.label_chat else Main.label_legacy)
            ++ u ": " ++ str_of_nat n ++ Main.samples
        /\ Upload.validate_lines json_loads exc_str lines
           = (true,
              Upload.msg_success
                (if is_chat then Upload.label_chat else Upload.label_old) n))
  /\ (forall line_num why,
         Main.validate_lines json_loads lines
         = Ok (false, Main.message line_num why, 0) ->
         exists m,
           Upload.validate_lines json_loads exc_str lines = (false, m)
           /\ upload_message line_num why m)
  /\ (forall detail n,
         Main.validate_lines json_loads lines = Ok (false, detail, n) ->
         exists line_num why, detail = Main.message line_num why /\ n = 0)
  /\ (forall e,
         Main.validate_lines json_loads lines = Raise e ->
         Upload.validate_lines json_loads exc_str lines
         = (false, Upload.msg_exception (exc_str e))).
Proof.
  unfold Main.validate_lines, Upload.validate_lines.
  destruct (for_lines_same_report Main.init 1 lines) as [st|e|k why m Hm];
    simpl; repeat split; try discriminate.
  - unfold Main.accept, Upload.accept. intros detail n [= <- <-].
    destruct (Main.format_type st) as [[|]|];
      [exists true | exists false | exists false]; split; reflexivity.
  - now intros e0 [= <-].
  - intros line_num why0 [= H]. apply message_tail_inj in H as [<- <-].
    exists m. split; [reflexivity | exact Hm].
  - intros detail n [= <- <-]. exists k, why. split; reflexivity.
Qed.

End SameReport.

(* ================================================================= *)
(** * The routes of main.py *)

Lemma strip_fixed (s : str) : strip (strip s) = strip s.
Proof.
  destruct (rstrip_decompose (lstrip s)) as [w2 [H2 E2]].
  destruct (lstrip_decompose s) as [w1 [H1 E1]].
  assert (Hl : lstrip (strip s) = strip s).
  { unfold strip. destruct (lstrip s) as [|c r] eqn:E; [reflexivity|].
    assert (Hc : isspace c = false).
    { destruct s as [|a s']; [discriminate|]. revert E. clear.
      revert a. induction s' as [|b s' IH]; intros a; simpl.
      - destruct (isspace a) eqn:Ha; [discriminate|]. now intros [= <- _].
      - destruct (isspace a) eqn:Ha.
        + apply IH.
        + now intros [= <- _]. }
    simpl. destruct (rstrip r); rewrite ?Hc; simpl; now rewrite Hc. }
  unfold strip at 1. rewrite Hl. unfold strip.
  rewrite <- (rstrip_app_space (rstrip (lstrip s)) w2 H2) at 1.
  now rewrite <- E2.
Qed.

(** A pass whose first record is a number, a boolean or [None] raises
    [TypeError] at the first membership test. *)
Lemma scalar_first_record_raises (json_loads : str -> res value)
  (c n : nat) (ls : list str) (line : str) (data : value) :
  first_record ls = Some line ->
  json_loads line = Ok data ->
  scalar data = true ->
  Main.for_lines json_loads (Main.mkState c None) n ls = Exc TypeError.
Proof.
  revert n. induction ls as [|l ls IH]; intros n Hf Hd Hs; [discriminate|].
  unfold first_record in Hf. simpl in Hf. simpl.
  destruct (nonblank l) eqn:Hn.
  - injection Hf as ->. unfold nonblank in Hn. apply negb_true_iff in Hn.
    rewrite (body_record json_loads _ _ _ _ Hn Hd).
    destruct data; try discriminate; reflexivity.
  - unfold nonblank in Hn. apply negb_false_iff in Hn.
    rewrite (body_blank json_loads _ _ _ Hn). simpl. now apply IH.
Qed.

Section RouteFacts.

Variable api_key : option str.
Variable files_create : option str -> list N -> str -> api_result file_object.
Variable jobs_list : nat -> api_result (list job_object).
Variable chat_create : value -> list value -> nat -> api_result value.
Variable json_loads : str -> res value.
Variable decode_utf8 : list N -> option str.
Variable float_nonzero : str -> bool.

Let upload_file :=
  MainApp.upload_file api_key files_create json_loads decode_utf8.
Let chat_api := MainApp.chat_api api_key chat_create float_nonzero.

(** X5: the upload route sends a file to the API only after the validator
    has accepted its text: whenever a request is made, a client exists, the
    bytes decoded, [validate_jsonl] returned ok = true, and the one request
    is the creation of a fine-tune file with the bytes received. *)
Theorem upload_sends_only_validated_files (filename : option str)
  (content : list N) (call : api_call) :
  In call (fst (upload_file filename content)) ->
  MainApp.get_openai_client api_key = true
  /\ (exists content_str detail n,
         decode_utf8 content = Some content_str
         /\ Main.validate_jsonl json_loads content_str = Ok (true, detail, n))
  /\ fst (upload_file filename content)
     = [FilesCreate filename content (u "fine-tune")].
Proof.
  unfold upload_file, MainApp.upload_file.
  destruct (MainApp.get_openai_client api_key); simpl; [|intros []].
  destruct (decode_utf8 content) as [content_str|]; simpl; [|intros []].
  destruct (Main.validate_jsonl json_loads content_str) as [[[ok d] n]|e] eqn:V;
    simpl; [|intros []].
  destruct ok; simpl; [|intros []].
  intros _. repeat split. now exists content_str, d, n.
Qed.

(** X6: every answer of the upload route with status 400 is a rejection by
    the validator: nothing was sent to the API, and the detail is the
    message of a line of the trimmed text that is not blank. *)
Theorem every_400_names_a_line (filename : option str) (content : list N)
  (calls : list api_call) (detail : str) :
  upload_file filename content = (calls, HTTPException 400 detail) ->
  calls = []
  /\ exists content_str k why line,
       decode_utf8 content = Some content_str
       /\ Main.validate_jsonl json_loads content_str
          = Ok (false, detail, 0)
       /\ detail = Main.message (S k) why
       /\ nth_error (split LF (strip content_str)) k = Some line
       /\ Main.is_blank line = false.
Proof.
  unfold upload_file, MainApp.upload_file.
  destruct (MainApp.get_openai_client api_key); simpl; [|discriminate].
  destruct (decode_utf8 content) as [content_str|]; simpl; [|discriminate].
  unfold Main.validate_jsonl, Main.validate_lines.
  destruct (Main.for_lines json_loads Main.init 1 (split LF (strip content_str)))
    as [st|r|e] eqn:E; simpl; try discriminate.
  - destruct (files_create filename content (u "fine-tune")); discriminate.
  - pose proof E as E0.
    apply for_lines_return in E as [k [why [line [-> [Hk Hb]]]]].
    simpl. intros [= <- <-]. split; [reflexivity|].
    exists content_str, k, why, line. repeat split; auto.
    now rewrite E0.
Qed.

(** X7: a file without any record (empty, or blank lines only) passes the
    validator and is sent to the API. *)
Theorem blank_file_is_uploaded (filename : option str) (content : list N)
  (content_str : str) :
  MainApp.get_openai_client api_key = true ->
  decode_utf8 content = Some content_str ->
  count_nonblank (split LF content_str) = 0 ->
  fst (upload_file filename content)
  = [FilesCreate filename content (u "fine-tune")].
Proof.
  intros Hc Hd Hz. unfold upload_file, MainApp.upload_file.
  rewrite Hc, Hd. simpl.
  apply count_nonblank_zero in Hz.
  apply all_blank_lines_all_space in Hz; [|reflexivity].
  apply lstrip_nil in Hz.
  unfold Main.validate_jsonl, strip. now rewrite Hz.
Qed.

(** X8: a text whose first record is a number, a boolean or [null] is not
    answered with a 400: the [TypeError] of the validator leaves the route
    uncaught, before anything is sent. *)
Theorem scalar_record_crashes_upload (filename : option str)
  (content : list N) (content_str line : str) (data : value) :
  MainApp.get_openai_client api_key = true ->
  decode_utf8 content = Some content_str ->
  first_record (split LF (strip content_str)) = Some line ->
  json_loads line = Ok data ->
  scalar data = true ->
  upload_file filename content = ([], Uncaught (Raised TypeError)).
Proof.
  intros Hc Hd Hf Hl Hs. unfold upload_file, MainApp.upload_file.
  rewrite Hc, Hd. simpl.
  unfold Main.validate_jsonl, Main.validate_lines, Main.init.
  now rewrite (scalar_first_record_raises json_loads 0 1 _ _ _ Hf Hl Hs).
Qed.

(** X9: a chat request whose message is missing or made of white space is
    answered with status 400, whatever the model, and nothing is sent. *)
Theorem blank_chat_message_is_a_400 (d : list (str * value)) (raw : str) :
  MainApp.get_openai_client api_key = true ->
  dict_get (u "message") d = Some (VStr raw)
  \/ (dict_get (u "message") d = None /\ raw = []) ->
  all_space raw = true ->
  chat_api (Ok (VDict d))
  = ([], HTTPException 400 MainApp.detail_model_and_message).
Proof.
  intros Hc Hm Hw. unfold chat_api, MainApp.chat_api. rewrite Hc. simpl.
  assert (Hs : strip raw = []).
  { unfold strip. apply lstrip_nil in Hw. now rewrite Hw. }
  destruct Hm as [Hm|[Hm ->]]; rewrite Hm; simpl.
  - rewrite Hs. now rewrite orb_true_r.
  - now rewrite orb_true_r.
Qed.

(** X10: what the chat route sends.  A request is sent only for a body that
    is an object whose [message] is a string; there is then one request, with
    1000 tokens; its model is the value of the body's [model], which is
    truthy; its last message is the user's, with as content the body's
    [message] trimmed, which is not empty; before it comes one system
    message with the body's [system_prompt] when that is truthy, and nothing
    otherwise; and the answer of the route is the answer of that request. *)
Theorem chat_request_shape (request_json : res value) (call : api_call) :
  In call (fst (chat_api request_json)) ->
  exists d raw,
    request_json = Ok (VDict d)
    /\ dict_get (u "message") d = Some (VStr raw)
    /\ strip raw <> []
    /\ truthy float_nonzero
         (match dict_get (u "model") d with Some v => v | None => VNone end)
       = true
    /\ call
       = ChatCompletionsCreate
           (match dict_get (u "model") d with Some v => v | None => VNone end)
           ((match dict_get (u "system_prompt") d with
             | Some v =>
                 if truthy float_nonzero v
                 then [VDict [(u "role", VStr (u "system")); (u "content", v)]]
                 else []
             | None => []
             end)
            ++ [VDict [(u "role", VStr (u "user"));
                       (u "content", VStr (strip raw))]])
           1000
    /\ chat_api request_json
       = ([call],
          match
            chat_create
              (match dict_get (u "model") d with Some v => v | None => VNone end)
              ((match dict_get (u "system_prompt") d with
                | Some v =>
                    if truthy float_nonzero v
                    then [VDict [(u "role", VStr (u "system"));
                                 (u "content", v)]]
                    else []
                | None => []
                end)
               ++ [VDict [(u "role", VStr (u "user"));
                          (u "content", VStr (strip raw))]])
              1000
          with
          | ApiOk content => Body (VDict [(u "response", content)])
          | ApiError text => HTTPException 500 text
          end).
Proof.
  unfold chat_api, MainApp.chat_api, MainApp.chat_messages.
  destruct (MainApp.get_openai_client api_key); simpl; [|intros []].
  destruct request_json as [data|e]; [|intros []].
  destruct data as [| | | | | |d]; simpl; try (intros []).
  destruct (dict_get (u "message") d) as [m|] eqn:Hm; simpl.
  - destruct m as [| | | |raw| |]; simpl; try (intros []).
    destruct (truthy float_nonzero
                match dict_get (u "model") d with
                | Some v => v
                | None => VNone
                end) eqn:Ht; simpl; [|intros []].
    destruct (strip raw) as [|c r] eqn:Hs; simpl; [intros []|].
    intros [<-|[]]. exists d, raw. rewrite Hs.
    split; [reflexivity|]. split; [exact Hm|]. split; [discriminate|].
    split; [exact Ht|].
    destruct (dict_get (u "system_prompt") d) as [v|]; split; reflexivity.
  - rewrite orb_true_r. intros [].
Qed.

End RouteFacts.

Lemma upload_sends_only_validated_files_witness :
  fst (MainApp.upload_file example_key example_files_create Json.loads
         ascii_decode (Some (u "train.jsonl")) chat_two_lines)
  = [FilesCreate (Some (u "train.jsonl")) chat_two_lines (u "fine-tune")].
Proof.
  apply (upload_sends_only_validated_files example_key example_files_create
           Json.loads ascii_decode (Some (u "train.jsonl")) chat_two_lines
           (FilesCreate (Some (u "train.jsonl")) chat_two_lines
              (u "fine-tune"))).
  left. reflexivity.
Defined.

Lemma every_400_names_a_line_witness :
  ([] : list api_call) = []
  /\ exists content_str k why line,
       ascii_decode (js "{'messages':[]}") = Some content_str
       /\ Main.validate_jsonl Json.loads content_str
          = Ok (false, Main.message 1 Main.MessagesInvalid, 0)
       /\ Main.message 1 Main.MessagesInvalid = Main.message (S k) why
       /\ nth_error (split LF (strip content_str)) k = Some line
       /\ Main.is_blank line = false.
Proof.
  apply (every_400_names_a_line example_key example_files_create Json.loads
           ascii_decode None (js "{'messages':[]}") []
           (Main.message 1 Main.MessagesInvalid)).
  reflexivity.
Defined.

Lemma blank_file_is_uploaded_witness :
  fst (MainApp.upload_file example_key example_files_create Json.loads
         ascii_decode None [LF; LF])
  = [FilesCreate None [LF; LF] (u "fine-tune")].
Proof.
  apply (blank_file_is_uploaded example_key example_files_create Json.loads
           ascii_decode None [LF; LF] [LF; LF]); reflexivity.
Defined.

Lemma scalar_record_crashes_upload_witness :
  MainApp.upload_file example_key example_files_create Json.loads
    ascii_decode None (u "42")
  = ([], Uncaught (Raised TypeError)).
Proof.
  apply (scalar_record_crashes_upload example_key example_files_create
           Json.loads ascii_decode None (u "42") (u "42") (u "42")
           (VInt 42)); reflexivity.
Defined.

Lemma blank_chat_message_is_a_400_witness :
  MainApp.chat_api example_key example_chat_create (fun _ => true)
    (Ok (VDict [(u "model", VStr (u "m")); (u "message", VStr (u "   "))]))
  = ([], HTTPException 400 MainApp.detail_model_and_message).
Proof.
  apply (blank_chat_message_is_a_400 example_key example_chat_create
           (fun _ => true)
           [(u "model", VStr (u "m")); (u "message", VStr (u "   "))]
           (u "   ")); [reflexivity | left; reflexivity | reflexivity].
Defined.

Lemma chat_request_shape_witness :
  exists d raw,
    Ok (VDict [(u "model", VStr (u "m")); (u "message", VStr (u "  hi "))])
    = Ok (VDict d)
    /\ dict_get (u "message") d = Some (VStr raw)
    /\ strip raw <> []
    /\ truthy (fun _ => true)
         (match dict_get (u "model") d with Some v => v | None => VNone end)
       = true
    /\ ChatCompletionsCreate (VStr (u "m"))
         [VDict [(u "role", VStr (u "user")); (u "content", VStr (u "hi"))]]
         1000
       = ChatCompletionsCreate
           (match dict_get (u "model") d with Some v => v | None => VNone end)
           ((match dict_get (u "system_prompt") d with
             | Some v =>
                 if truthy (fun _ => true) v
                 then [VDict [(u "role", VStr (u "system")); (u "content", v)]]
                 else []
             | None => []
             end)
            ++ [VDict [(u "role", VStr (u "user"));
                       (u "content", VStr (strip raw))]])
           1000
    /\ MainApp.chat_api example_key example_chat_create (fun _ => true)
         (Ok (VDict [(u "model", VStr (u "m"));
                     (u "message", VStr (u "  hi "))]))
       = ([ChatCompletionsCreate (VStr (u "m"))
             [VDict [(u "role", VStr (u "user"));
                     (u "content", VStr (u "hi"))]]
             1000],
          match
            example_chat_create
              (match dict_get (u "model") d with Some v => v | None => VNone end)
              ((match dict_get (u "system_prompt") d with
                | Some v =>
                    if truthy (fun _ => true) v
                    then [VDict [(u "role", VStr (u "system"));
                                 (u "content", v)]]
                    else []
                | None => []
                end)
               ++ [VDict [(u "role", VStr (u "user"));
                          (u "content", VStr (strip raw))]])
              1000
          with
          | ApiOk content => Body (VDict [(u "response", content)])
          | ApiError text => HTTPException 500 text
          end).
Proof.
  apply (chat_request_shape example_key example_chat_create (fun _ => true)
           (Ok (VDict [(u "model", VStr (u "m"));
                       (u "message", VStr (u "  hi "))]))).
  left. reflexivity.
Defined.

(* ================================================================= *)
(** ** The pages *)

(** The pieces of a split text, each followed by the separator but the
    last, give the text back, and the last piece holds no separator. *)
Lemma split_last_piece (sep : char) (s : str) :
  exists front final,
    split sep s = front ++ [final]
    /\ s = concat (map (fun x => x ++ [sep]) front) ++ final
    /\ ~ In sep final.
Proof.
  induction s as [|c r [front [final [Hs [Hr Hn]]]]].
  - exists [], []. repeat split. intros [].
  - simpl. destruct (N.eqb_spec c sep) as [->|Hc].
    + exists ([] :: front), final. rewrite Hs. repeat split; [|exact Hn].
      simpl. now rewrite <- Hr.
    + rewrite Hs. destruct front as [|f front]; simpl.
      * exists [], (c :: final). simpl in Hr. subst r.
        repeat split. intros [H|H]; [now apply Hc | now apply Hn].
      * exists ((c :: f) :: front), final. repeat split; [|exact Hn].
        simpl in *. now rewrite <- Hr.
Qed.

Lemma last_segment_suffix (s : str) :
  exists prefix,
    s = prefix ++ MainApp.last_segment s
    /\ (prefix = [] \/ exists p, prefix = p ++ [58%N])
    /\ ~ In 58%N (MainApp.last_segment s).
Proof.
  unfold MainApp.last_segment.
  destruct (split_last_piece 58%N s) as [front [final [Hs [Hr Hn]]]].
  rewrite Hs, last_last.
  exists (concat (map (fun x => x ++ [58%N]) front)).
  repeat split; [exact Hr | | exact Hn].
  destruct front as [|f front] using rev_ind; [now left|].
  right. rewrite map_app, concat_app. simpl.
  exists (concat (map (fun x => x ++ [58%N]) front) ++ f).
  now rewrite List.app_nil_r, app_assoc.
Qed.

Lemma succeeded_models_in (jobs : list job_object) (entry : MainApp.model_entry) :
  In entry (MainApp.succeeded_models jobs) ->
  exists j,
    In j jobs
    /\ job_status j = u "succeeded"
    /\ job_fine_tuned_model j = Some (MainApp.entry_id entry)
    /\ MainApp.entry_id entry <> []
    /\ MainApp.entry_name entry
       = MainApp.last_segment (MainApp.entry_id entry).
Proof.
  induction jobs as [|j jobs IH]; simpl; [intros []|].
  unfold str_eqb.
  destruct (list_eq_dec N.eq_dec (job_status j) (u "succeeded")) as [Hs|Hs].
  - destruct (job_fine_tuned_model j) as [[|c m]|] eqn:Hm.
    + intros H. destruct (IH H) as [j' [Hin H']]. exists j'. split; auto.
    + intros [<-|H].
      * exists j. simpl. repeat split; auto. discriminate.
      * destruct (IH H) as [j' [Hin H']]. exists j'. split; auto.
    + intros H. destruct (IH H) as [j' [Hin H']]. exists j'. split; auto.
  - intros H. destruct (IH H) as [j' [Hin H']]. exists j'. split; auto.
Qed.

(** X11: every model that the chat page offers is the fine-tuned model of a
    job of the listing whose status is [succeeded]; its id is not empty, and
    its display name is what follows the last colon of the id (the whole id
    when it has no colon), so the name holds no colon. *)
Theorem offered_models_are_succeeded_jobs (api_key : option str)
  (jobs_list : nat -> api_result (list job_object))
  (entry : MainApp.model_entry) :
  In entry (fst (snd (MainApp.chat_page api_key jobs_list))) ->
  exists jobs j prefix,
    jobs_list 50 = ApiOk jobs
    /\ In j jobs
    /\ job_status j = u "succeeded"
    /\ job_fine_tuned_model j = Some (MainApp.entry_id entry)
    /\ MainApp.entry_id entry <> []
    /\ MainApp.entry_id entry = prefix ++ MainApp.entry_name entry
    /\ (prefix = [] \/ exists p, prefix = p ++ [58%N])
    /\ ~ In 58%N (MainApp.entry_name entry).
Proof.
  unfold MainApp.chat_page.
  destruct (MainApp.get_openai_client api_key); [|intros []].
  destruct (jobs_list 50) as [jobs|text]; simpl; [|intros []].
  intros H. apply succeeded_models_in in H as [j [Hin [Hs [Hm [Hne Hname]]]]].
  destruct (last_segment_suffix (MainApp.entry_id entry))
    as [prefix [Hp [Hend Hno]]].
  exists jobs, j, prefix. rewrite Hname. repeat split; auto.
Qed.

Lemma offered_models_are_succeeded_jobs_witness :
  exists jobs j prefix,
    ApiOk example_jobs = ApiOk jobs
    /\ In j jobs
    /\ job_status j = u "succeeded"
    /\ job_fine_tuned_model j = Some (u "ft:gpt-4o-mini:org:name:abc")
    /\ u "ft:gpt-4o-mini:org:name:abc" <> []
    /\ u "ft:gpt-4o-mini:org:name:abc" = prefix ++ u "abc"
    /\ (prefix = [] \/ exists p, prefix = p ++ [58%N])
    /\ ~ In 58%N (u "abc").
Proof.
  apply (offered_models_are_succeeded_jobs example_key
           (fun _ => ApiOk example_jobs)
           (MainApp.mkEntry (u "ft:gpt-4o-mini:org:name:abc") (u "abc"))).
  left. reflexivity.
Defined.

(* ================================================================= *)
(** ** Sizes *)

Local Open Scope Z_scope.

Lemma round_half_even_bounds (a d lo hi : Z) :
  0 < d -> lo * d <= a -> a <= hi * d ->
  lo <= round_half_even a d <= hi.
Proof.
  intros Hd Hlo Hhi. unfold round_half_even.
  pose proof (Z.div_mod a d ltac:(lia)) as Hdm.
  pose proof (Z.mod_pos_bound a d Hd) as Hr.
  assert (Hq : lo <= a / d) by (apply Z.div_le_lower_bound; lia).
  assert (Hq' : a / d < hi \/ (a / d = hi /\ a mod d = 0)) by nia.
  destruct (Z.ltb_spec d (2 * (a mod d))).
  - lia.
  - destruct (Z.eqb_spec (2 * (a mod d)) d).
    + destruct (Z.even (a / d)); lia.
    + lia.
Qed.

Lemma round_half_even_exact (n : Z) : round_half_even (100 * n) 1 = 100 * n.
Proof.
  unfold round_half_even. rewrite Z.div_1_r, Z.mod_1_r. reflexivity.
Qed.

Lemma render_whole (n : Z) :
  0 <= n ->
  render_hundredths (100 * n) = str_of_nat (Z.to_nat n) ++ u ".00".
Proof.
  intros Hn. unfold render_hundredths.
  rewrite (Z.mul_comm 100 n), Z.div_mul, Z.mod_mul by lia.
  reflexivity.
Qed.

(** X12: a size below 1024 bytes is shown as that number of bytes, with
    [.00] after it. *)
Theorem format_bytes_below_1024 (n : Z) :
  0 <= n < 1024 ->
  MainApp.format_bytes n = str_of_nat (Z.to_nat n) ++ u ".00 B".
Proof.
  intros Hn. unfold MainApp.format_bytes.
  cbn [MainApp.format_bytes_from]. unfold lt_1024, div_1024.
  cbn [amount scale].
  destruct (Z.ltb_spec n (1024 * 1)); [|lia].
  unfold format_2f, hundredths. cbn [amount scale].
  destruct (Z.ltb_spec n 0); [lia|].
  rewrite Z.abs_eq, round_half_even_exact, render_whole by lia.
  cbn [app]. rewrite <- app_assoc. reflexivity.
Qed.

Lemma format_bytes_below_1024_witness :
  MainApp.format_bytes 512 = u "512.00 B".
Proof. apply (format_bytes_below_1024 512). lia. Defined.

Lemma format_2f_nonneg (n d : Z) :
  0 <= n ->
  format_2f (mkSize n d)
  = render_hundredths (round_half_even (100 * n) d).
Proof.
  intros Hn. unfold format_2f, hundredths. cbn [amount scale].
  destruct (Z.ltb_spec n 0); [lia|]. now rewrite Z.abs_eq by lia.
Qed.

(** X13: from 1024 bytes on, below [2^53], the size is divided by 1024 until
    it is below 1024 or the unit is TB, and the number shown is the quotient
    rounded to hundredths: it is at least 1.00 and, for KB, MB and GB, at
    most 1024.00. *)
Theorem format_bytes_scaled (n : Z) :
  1024 <= n < 2 ^ 53 ->
  exists k unit h,
    In (k, unit) [(1, u "KB"); (2, u "MB"); (3, u "GB"); (4, u "TB")]
    /\ MainApp.format_bytes n = render_hundredths h ++ u " " ++ unit
    /\ h = round_half_even (100 * n) (1024 ^ k)
    /\ 1024 ^ k <= n
    /\ (k < 4 -> n < 1024 ^ (k + 1))
    /\ 100 <= h
    /\ (k < 4 -> h <= 102400).
Proof.
  intros Hn. unfold MainApp.format_bytes.
  cbn [MainApp.format_bytes_from]. unfold lt_1024, div_1024.
  cbn [amount scale].
  destruct (Z.ltb_spec n (1024 * 1)); [lia|].
  destruct (Z.ltb_spec n (1024 * (1024 * 1)));
    [exists 1, (u "KB") | destruct (Z.ltb_spec n (1024 * (1024 * (1024 * 1))));
       [exists 2, (u "MB")
       | destruct (Z.ltb_spec n (1024 * (1024 * (1024 * (1024 * 1)))));
         [exists 3, (u "GB") | exists 4, (u "TB")]]];
    eexists; (split; [simpl; tauto|]);
    (split; [rewrite format_2f_nonneg by lia; reflexivity|]);
    (split; [reflexivity|]);
    (split; [lia|]); (split; [lia|]);
    split; intros;
      try (apply (round_half_even_bounds (100 * n) _ 100 102400); lia);
      try (apply (round_half_even_bounds (100 * n) _ 100 (100 * n)); lia).
Qed.

Lemma format_bytes_scaled_witness :
  exists k unit h,
    In (k, unit) [(1, u "KB"); (2, u "MB"); (3, u "GB"); (4, u "TB")]
    /\ MainApp.format_bytes 1048575 = render_hundredths h ++ u " " ++ unit
    /\ h = round_half_even (100 * 1048575) (1024 ^ k)
    /\ 1024 ^ k <= 1048575
    /\ (k < 4 -> 1048575 < 1024 ^ (k + 1))
    /\ 100 <= h
    /\ (k < 4 -> h <= 102400).
Proof. apply (format_bytes_scaled 1048575). lia. Defined.

(** X14: the size that the upload script prints is the one [format_bytes]
    gives for every size below 1024^4 bytes; from there on (below [2^53])
    the script stays with GB where [format_bytes] goes on to TB. *)
Theorem size_str_agrees_below_tib (n : Z) :
  (n < 1024 ^ 4 -> UploadScript.size_str n = MainApp.format_bytes n)
  /\ (1024 ^ 4 <= n < 2 ^ 53 ->
      UploadScript.size_str n = format_2f (mkSize n (1024 ^ 3)) ++ u " GB"
      /\ MainApp.format_bytes n = format_2f (mkSize n (1024 ^ 4)) ++ u " TB").
Proof.
  unfold UploadScript.size_str, MainApp.format_bytes.
  cbn [UploadScript.size_str_from MainApp.format_bytes_from].
  unfold lt_1024, div_1024. cbn [amount scale].
  split; intros Hn.
  - destruct (Z.ltb_spec n (1024 * 1)); [reflexivity|].
    destruct (Z.ltb_spec n (1024 * (1024 * 1))); [reflexivity|].
    destruct (Z.ltb_spec n (1024 * (1024 * (1024 * 1)))); [reflexivity|].
    destruct (Z.ltb_spec n (1024 * (1024 * (1024 * (1024 * 1)))));
      [reflexivity|lia].
  - destruct (Z.ltb_spec n (1024 * 1)); [lia|].
    destruct (Z.ltb_spec n (1024 * (1024 * 1))); [lia|].
    destruct (Z.ltb_spec n (1024 * (1024 * (1024 * 1)))); [lia|].
    destruct (Z.ltb_spec n (1024 * (1024 * (1024 * (1024 * 1))))); [lia|].
    split; reflexivity.
Qed.

Lemma size_str_agrees_below_tib_witness :
  UploadScript.size_str 123456789 = MainApp.format_bytes 123456789.
Proof. apply (proj1 (size_str_agrees_below_tib 123456789)). lia. Defined.

Local Close Scope Z_scope.

(* ================================================================= *)
(** ** The upload script *)

(** X15: the upload script sends a file to the API only when the key is set,
    the file exists and its lines are accepted, in which case the validator
    of main.py accepts the same lines; it then sends that one request. *)
Theorem script_uploads_only_accepted_files (api_key : option str)
  (json_loads : str -> res value) (exc_str : exn -> str)
  (file_lines : str -> option (list str)) (getsize : str -> Z)
  (files_create : str -> str -> api_result file_object)
  (file_path purpose : str) (call : api_call) :
  In call (UploadScript.calls
             (UploadScript.upload_file api_key json_loads exc_str file_lines
                getsize files_create file_path purpose)) ->
  (exists key, api_key = Some key /\ key <> [])
  /\ (exists lines detail n,
         file_lines file_path = Some lines
         /\ Main.validate_lines json_loads lines = Ok (true, detail, n))
  /\ UploadScript.calls
       (UploadScript.upload_file api_key json_loads exc_str file_lines
          getsize files_create file_path purpose)
     = [FilesCreateFromPath file_path purpose].
Proof.
  unfold UploadScript.upload_file.
  destruct api_key as [[|c key]|]; simpl; try (intros []).
  destruct (file_lines file_path) as [lines|] eqn:Hf; simpl; [|intros []].
  unfold Upload.validate_jsonl. rewrite Hf.
  unfold Upload.validate_lines.
  pose proof (for_lines_same_verdict json_loads Main.init 1 lines) as Hv.
  destruct (Upload.for_lines json_loads Main.init 1 lines) as [st|[ok d]|e];
    simpl.
  - intros Hin. repeat split.
    + exists (c :: key). split; [reflexivity | discriminate].
    + exists lines. unfold Main.validate_lines.
      inversion Hv; subst. unfold Main.finish, Main.accept.
      eexists _, _. split; reflexivity.
    + now destruct (files_create file_path purpose).
  - inversion Hv; subst. simpl. intros [].
  - intros [].
Qed.

Lemma script_uploads_only_accepted_files_witness :
  UploadScript.calls
    (UploadScript.upload_file example_key Json.loads (fun _ => [])
       (fun _ => Some (split LF chat_two_lines)) (fun _ => 2048%Z)
       example_files_create_path (u "train.jsonl") (u "fine-tune"))
  = [FilesCreateFromPath (u "train.jsonl") (u "fine-tune")].
Proof.
  apply (script_uploads_only_accepted_files example_key Json.loads
           (fun _ => []) (fun _ => Some (split LF chat_two_lines))
           (fun _ => 2048%Z) example_files_create_path (u "train.jsonl")
           (u "fine-tune")
           (FilesCreateFromPath (u "train.jsonl") (u "fine-tune"))).
  left. reflexivity.
Defined.

Lemma upload_reports_same_line_witness :
  exists m,
    Upload.validate_lines Json.loads (fun _ => [])
      [js "{'messages':[{'role':'u','content':'c'}]}"; js "{'messages':[]}"]
    = (false, m)
    /\ (m = Upload.msg_not_a_list 2 \/ m = Upload.msg_empty 2).
Proof.
  apply (proj1 (proj2 (upload_reports_same_line Json.loads (fun _ => [])
                         [js "{'messages':[{'role':'u','content':'c'}]}";
                          js "{'messages':[]}"]))
           2 Main.MessagesInvalid).
  reflexivity.
Defined.
